(** * Driver safety system: drowsiness detector, vitals fusion, alert dispatch

    A shallow embedding of the four Python modules of the repository

      - [detect_drowsiness.py]  (module [Drowsiness])
      - [heart_rate_model.py]   (module [HeartRateModel])
      - [alert.py]              (module [Alert])
      - [app.py]                (module [App])

    followed by the properties proved about them.

    Numbers.  The detector works on numpy [float64] values.  Its functions are
    written once, over a small record of arithmetic operations ([arith]), and
    read at two instances: [binary64], Rocq's primitive IEEE 754 binary64
    floats (what the interpreter computes, bit for bit, and what every
    evaluation below runs on), and [exact], the real numbers (the reading in
    which algebraic laws of the ratios are stated).  Probabilities, sensor
    values and clock readings of the other three modules are rationals,
    i.e. float64 without rounding.

    Python exceptions are the [Raise] case of [result]; dictionaries keyed by
    strings are [gmap string _]. *)

From Stdlib Require Import ZArith QArith Qround Reals Psatz List String Ascii Bool.
From Stdlib Require Import Floats Uint63.
From stdpp Require Import base option list gmap strings pretty.
Import ListNotations.

#[local] Set Warnings "-inexact-float".
#[local] Set Warnings "-at-level-200-changed".

(* ================================================================== *)
(** * Part I: the embedding                                            *)
(* ================================================================== *)

(** ** Exceptions *)

Inductive exn : Type :=
  | IndexError
  | KeyError (key : string)
  | ValueError
  | RuntimeError (msg : string).

Inductive result (A : Type) : Type :=
  | Ok (a : A)
  | Raise (e : exn).
Arguments Ok {A} a.
Arguments Raise {A} e.

Definition rbind {A B : Type} (m : result A) (k : A -> result B) : result B :=
  match m with
  | Ok a => k a
  | Raise e => Raise e
  end.

Notation "'do' x <- m ; k" := (rbind m (fun x => k))
  (at level 10, x name, m at level 100, k at level 200, only parsing).

(** [a[i]] on a Python sequence, for a non-negative index. *)
Definition item {A : Type} (a : list A) (i : nat) : result A :=
  match a !! i with
  | Some x => Ok x
  | None => Raise IndexError
  end.

(** [d[k]] on a dictionary keyed by strings. *)
Definition getitem {V : Type} (d : gmap string V) (k : string) : result V :=
  match d !! k with
  | Some v => Ok v
  | None => Raise (KeyError k)
  end.

(** [d.get(k, default)]. *)
Definition dict_get {V : Type} (d : gmap string V) (k : string) (default : V) : V :=
  match d !! k with
  | Some v => v
  | None => default
  end.

(** ** Arithmetic of the detector *)

Record arith (F : Type) : Type := Arith {
  of_int : Z -> F;          (* int -> float64 *)
  fadd : F -> F -> F;
  fmul : F -> F -> F;
  fdiv : F -> F -> F;
  fsqrt : F -> F;
  flt : F -> F -> bool      (* x < y *)
}.
Arguments of_int {F} _ _.
Arguments fadd {F} _ _ _.
Arguments fmul {F} _ _ _.
Arguments fdiv {F} _ _ _.
Arguments fsqrt {F} _ _.
Arguments flt {F} _ _ _.

(** A decimal literal [n/d] of the source, e.g. [0.25] as [25/100]: the
    float64 nearest to it is the quotient of the two integers. *)
Definition literal {F : Type} (num : arith F) (q : Q) : F :=
  fdiv num (of_int num (Qnum q)) (of_int num (Zpos (Qden q))).

(** int64 to float64 (exact below 2^53 in magnitude). *)
Definition Z2F (z : Z) : float :=
  match z with
  | Z0 => 0%float
  | Zpos _ => PrimFloat.of_uint63 (Uint63.of_Z z)
  | Zneg _ => PrimFloat.opp (PrimFloat.of_uint63 (Uint63.of_Z (- z)))
  end.

Definition binary64 : arith float :=
  {| of_int := Z2F;
     fadd := PrimFloat.add;
     fmul := PrimFloat.mul;
     fdiv := PrimFloat.div;
     fsqrt := PrimFloat.sqrt;
     flt := PrimFloat.ltb |}.

Definition Rltb (x y : R) : bool := if Rlt_dec x y then true else false.

Definition exact : arith R :=
  {| of_int := IZR;
     fadd := Rplus;
     fmul := Rmult;
     fdiv := Rdiv;
     fsqrt := R_sqrt.sqrt;
     flt := Rltb |}.

(* ------------------------------------------------------------------ *)
(** ** detect_drowsiness.py                                            *)
(* ------------------------------------------------------------------ *)

Module Drowsiness.

Local Open Scope Z_scope.

(** A landmark: one row of the integer array [face_utils.shape_to_np] returns. *)
Definition point : Type := (Z * Z)%type.

(** [a[start:stop]] for non-negative bounds. *)
Definition slice {A : Type} (a : list A) (start stop : nat) : list A :=
  take (stop - start)%nat (drop start a).

(** The index ranges of [imutils.face_utils.FACIAL_LANDMARKS_IDXS]
    (dlib's 68-point model). *)
Definition L_START : nat := 42.
Definition L_END : nat := 48.
Definition R_START : nat := 36.
Definition R_END : nat := 42.
Definition M_START : nat := 48.
Definition M_END : nat := 68.

Definition EAR_CONSEC_FRAMES : Z := 20.

Section Detector.
Context {F : Type} (num : arith F).

Local Notation "x +. y" := (fadd num x y) (at level 50, left associativity).
Local Notation "x *. y" := (fmul num x y) (at level 40, left associativity).
Local Notation "x /. y" := (fdiv num x y) (at level 40, left associativity).

Definition EAR_THRESHOLD : F := literal num 0.25%Q.
Definition YAWN_THRESHOLD : F := literal num 0.6%Q.

(** [scipy.spatial.distance.euclidean] on two integer points: the 2-norm
    of the difference, in float64. *)
Definition euclidean (u v : point) : F :=
  let dx := of_int num (fst u - fst v) in
  let dy := of_int num (snd u - snd v) in
  fsqrt num (dx *. dx +. dy *. dy).

Definition eye_aspect_ratio (eye : list point) : result F :=
  do e1 <- item eye 1 ; do e5 <- item eye 5 ;
  let A := euclidean e1 e5 in
  do e2 <- item eye 2 ; do e4 <- item eye 4 ;
  let B := euclidean e2 e4 in
  do e0 <- item eye 0 ; do e3 <- item eye 3 ;
  let C := euclidean e0 e3 in
  Ok ((A +. B) /. (of_int num 2 *. C)).

Definition mouth_aspect_ratio (mouth : list point) : result F :=
  do m13 <- item mouth 13 ; do m19 <- item mouth 19 ;
  let A := euclidean m13 m19 in
  do m14 <- item mouth 14 ; do m18 <- item mouth 18 ;
  let B := euclidean m14 m18 in
  do m15 <- item mouth 15 ; do m17 <- item mouth 17 ;
  let C := euclidean m15 m17 in
  do m12 <- item mouth 12 ; do m16 <- item mouth 16 ;
  let D := euclidean m12 m16 in
  Ok ((A +. B +. C) /. (of_int num 3 *. D)).

(** The mutable attributes of a [DrowsinessDetector]. *)
Record DrowsinessDetector : Type := MkDetector {
  counter : Z;
  blink_count : Z;
  yawn_count : Z;
  drowsy : bool;
  yawning : bool
}.

(** [DrowsinessDetector.__init__]. *)
Definition __init__ : DrowsinessDetector :=
  {| counter := 0; blink_count := 0; yawn_count := 0;
     drowsy := false; yawning := false |}.

(** The status dictionary, without its two display entries ["ear"] and
    ["mar"] (the ratios rounded to three decimals). *)
Record Status : Type := MkStatus {
  face_detected : bool;
  status_blink_count : Z;
  status_yawn_count : Z;
  status_drowsy : bool;
  status_yawning : bool;
  risk_level : string
}.

(** Lines 80-90 of [process_frame]: the two ratios of one face. *)
Definition ratios (shape : list point) : result (F * F) :=
  let left_eye := slice shape L_START L_END in
  let right_eye := slice shape R_START R_END in
  do left_ear <- eye_aspect_ratio left_eye ;
  do right_ear <- eye_aspect_ratio right_eye ;
  let ear := (left_ear +. right_ear) /. of_int num 2 in
  let mouth := slice shape M_START M_END in
  do mar <- mouth_aspect_ratio mouth ;
  Ok (ear, mar).

(** Lines 93-105: the drowsiness logic of one face. *)
Definition drowsiness_logic (self : DrowsinessDetector) (status : Status) (ear : F)
  : DrowsinessDetector * Status :=
  if flt num ear EAR_THRESHOLD then
    let c := counter self + 1 in
    if EAR_CONSEC_FRAMES <=? c then
      (MkDetector c (blink_count self) (yawn_count self) true (yawning self),
       MkStatus (face_detected status) (status_blink_count status)
                (status_yawn_count status) true (status_yawning status)
                (risk_level status))
    else
      (MkDetector c (blink_count self) (yawn_count self) (drowsy self) (yawning self),
       status)
  else
    if 3 <=? counter self then
      let b := blink_count self + 1 in
      (MkDetector 0 b (yawn_count self) false (yawning self),
       MkStatus (face_detected status) b (status_yawn_count status)
                (status_drowsy status) (status_yawning status) (risk_level status))
    else
      (MkDetector 0 (blink_count self) (yawn_count self) false (yawning self),
       status).

(** Lines 108-116: the yawn logic of one face. *)
Definition yawn_logic (self : DrowsinessDetector) (status : Status) (mar : F)
  : DrowsinessDetector * Status :=
  if flt num YAWN_THRESHOLD mar then
    let y := if yawning self then yawn_count self else yawn_count self + 1 in
    (MkDetector (counter self) (blink_count self) y (drowsy self) true,
     MkStatus (face_detected status) (status_blink_count status)
              (status_yawn_count status) (status_drowsy status) true
              (risk_level status))
  else
    (MkDetector (counter self) (blink_count self) (yawn_count self) (drowsy self) false,
     status).

Definition set_face_detected (status : Status) : Status :=
  MkStatus true (status_blink_count status) (status_yawn_count status)
           (status_drowsy status) (status_yawning status) (risk_level status).

(** The loop [for rect in rects]; a frame is the list of landmark arrays
    the predictor yields for the rectangles the detector finds in it.  An
    exception leaves the loop with the attributes as they are then. *)
Fixpoint for_rects (self : DrowsinessDetector) (status : Status) (rects : list (list point))
  : DrowsinessDetector * result Status :=
  match rects with
  | [] => (self, Ok status)
  | shape :: rest =>
      let status := set_face_detected status in
      match ratios shape with
      | Raise e => (self, Raise e)
      | Ok (ear, mar) =>
          let '(self, status) := drowsiness_logic self status ear in
          let '(self, status) := yawn_logic self status mar in
          for_rects self status rest
      end
  end.

(** Lines 133-138. *)
Definition risk_of (status : Status) : string :=
  if status_drowsy status && status_yawning status then "CRITICAL"
  else if status_drowsy status || (3 <=? status_yawn_count status) then "WARNING"
  else "NORMAL".

(** [process_frame]: the attributes after the call, and the status
    returned (the annotated image is not modelled). *)
Definition process_frame (self : DrowsinessDetector) (frame : list (list point))
  : DrowsinessDetector * result Status :=
  let status := MkStatus false (blink_count self) (yawn_count self) false false "NORMAL" in
  match for_rects self status frame with
  | (self, Ok status) =>
      (self, Ok (MkStatus (face_detected status) (status_blink_count status)
                          (status_yawn_count status) (status_drowsy status)
                          (status_yawning status) (risk_of status)))
  | (self, Raise e) => (self, Raise e)
  end.

(** The detector after a sequence of calls (the main loop). *)
Definition run (self : DrowsinessDetector) (frames : list (list (list point))) : DrowsinessDetector :=
  fold_left (fun d frame => fst (process_frame d frame)) frames self.

End Detector.

End Drowsiness.

(* ------------------------------------------------------------------ *)
(** ** Rational arithmetic of the other modules                        *)
(* ------------------------------------------------------------------ *)

(** [x < y] and [x >= y] on rationals, as booleans. *)
Definition Qltb (x y : Q) : bool := negb (Qle_bool y x).
Definition Qgeb (x y : Q) : bool := Qle_bool y x.

(** The integer nearest to [x], a tie going to the even one. *)
Definition round_half_even (x : Q) : Z :=
  let f := Qfloor x in
  let r := (x - inject_Z f)%Q in
  if Qltb r (1 # 2) then f
  else if Qltb (1 # 2) r then (f + 1)%Z
  else if Z.even f then f else (f + 1)%Z.

(** [round(x, ndigits)] of Python 3 on the exact value of [x]. *)
Definition py_round (x : Q) (ndigits : nat) : Q :=
  let p := inject_Z (10 ^ Z.of_nat ndigits) in
  Qred (inject_Z (round_half_even (x * p)) / p).

(* ------------------------------------------------------------------ *)
(** ** heart_rate_model.py                                             *)
(* ------------------------------------------------------------------ *)

Module HeartRateModel.

Local Open Scope Q_scope.

Definition RISK_LABELS : gmap nat string :=
  <[0%nat := "NORMAL"]> (<[1%nat := "WARNING"]> (<[2%nat := "CRITICAL"]> ∅)).

(** A two-dimensional numpy array, row by row. *)
Definition array2 : Type := list (list Q).

(** [w * a] for a scalar [w]. *)
Definition scale (w : Q) (a : array2) : array2 := map (map (Qmult w)) a.

(** [a + b] on arrays of one shape (broadcasting of unequal shapes is not
    modelled: unequal shapes are the [ValueError] numpy raises when they do
    not broadcast). *)
Fixpoint add_rows (a b : list Q) : result (list Q) :=
  match a, b with
  | [], [] => Ok []
  | x :: a', y :: b' => do r <- add_rows a' b' ; Ok (x + y :: r)
  | _, _ => Raise ValueError
  end.

Fixpoint add_arrays (a b : array2) : result array2 :=
  match a, b with
  | [], [] => Ok []
  | x :: a', y :: b' =>
      do r <- add_rows x y ; do rs <- add_arrays a' b' ; Ok (r :: rs)
  | _, _ => Raise ValueError
  end.

(** [np.argmax] of one row: the first index that holds the maximum. *)
Fixpoint argmax_from (best : Q) (besti i : nat) (row : list Q) : nat :=
  match row with
  | [] => besti
  | x :: rest =>
      if Qltb best x then argmax_from x i (S i) rest
      else argmax_from best besti (S i) rest
  end.

Definition argmax (row : list Q) : result nat :=
  match row with
  | [] => Raise ValueError
  | x :: rest => Ok (argmax_from x 0 1 rest)
  end.

(** [np.argmax(a, axis=1)]. *)
Fixpoint argmax_axis1 (a : array2) : result (list nat) :=
  match a with
  | [] => Ok []
  | row :: rest => do i <- argmax row ; do r <- argmax_axis1 rest ; Ok (i :: r)
  end.

(** The builtin [max] of one row. *)
Fixpoint max_from (best : Q) (row : list Q) : Q :=
  match row with
  | [] => best
  | x :: rest => if Qltb best x then max_from x rest else max_from best rest
  end.

Definition py_max (row : list Q) : result Q :=
  match row with
  | [] => Raise ValueError
  | x :: rest => Ok (max_from x rest)
  end.

(** [(rf_weight * rf_proba) + (gb_weight * gb_proba)]. *)
Definition combine (rf_proba gb_proba : array2) (rf_weight gb_weight : Q)
  : result array2 :=
  add_arrays (scale rf_weight rf_proba) (scale gb_weight gb_proba).

Definition _fuse_predictions (rf_proba gb_proba : array2) (rf_weight gb_weight : Q)
  : result (list nat) :=
  do combined <- combine rf_proba gb_proba rf_weight gb_weight ;
  argmax_axis1 combined.

(** A [DriverHealthModel]: the flag, and the fitted scaler and classifiers
    as the functions [transform] and [predict_proba] they provide. *)
Record DriverHealthModel : Type := MkModel {
  is_trained : bool;
  scaler_transform : array2 -> array2;
  rf_predict_proba : array2 -> array2;
  gb_predict_proba : array2 -> array2
}.

Record Prediction : Type := MkPrediction {
  risk_label : nat;
  risk_level : string;
  confidence : Q;
  heart_rate : Q;
  hrv : Q;
  spo2 : Q;
  skin_temp : Q
}.

Definition predict (self : DriverHealthModel)
    (heart_rate hrv spo2 skin_temp activity_level time_of_day_hr : Q)
  : result Prediction :=
  if negb (is_trained self) then
    Raise (RuntimeError "Model not trained yet. Call train() first.")
  else
    let features :=
      [[heart_rate; hrv; spo2; skin_temp; activity_level; time_of_day_hr]] in
    let features_scaled := scaler_transform self features in
    let rf_proba := rf_predict_proba self features_scaled in
    let gb_proba := gb_predict_proba self features_scaled in
    do labels <- _fuse_predictions rf_proba gb_proba 0.45 0.55 ;
    do label <- item labels 0 ;
    do combined <- combine rf_proba gb_proba 0.45 0.55 ;
    do row <- item combined 0 ;
    do confidence <- py_max row ;
    do level <- match RISK_LABELS !! label with
                | Some l => Ok l
                | None => Raise (KeyError (pretty label))
                end ;
    Ok (MkPrediction label level (py_round (confidence * 100) 1)
                     heart_rate hrv spo2 skin_temp).

(** The labelling of one sample in [generate_dataset] (lines 64-71), on
    the values as drawn. *)
Definition risk_label_of (hr hrv spo2 skin_temp : Q) (time_of_day : Z) : nat :=
  if Qltb 140 hr || Qltb hr 45 || Qltb spo2 94 || Qltb hrv 15 || Qltb 38 skin_temp
  then 2%nat
  else if Qltb 110 hr || Qltb hr 55 || Qltb spo2 96 || Qltb hrv 25
          || ((1 <=? time_of_day)%Z && (time_of_day <? 5)%Z)
  then 1%nat
  else 0%nat.

(** One row of the dataset, from the values one pass of the loop draws:
    the four vitals rounded to one decimal, the activity, the hour and
    the label. *)
Record dataset_row : Type := MkRow {
  row_heart_rate : Q;
  row_hrv : Q;
  row_spo2 : Q;
  row_skin_temp : Q;
  row_activity_level : Z;
  row_time_of_day_hr : Z;
  row_risk_label : nat
}.

Definition make_row (activity : Z) (hr hrv spo2 skin_temp : Q) (time_of_day : Z)
  : dataset_row :=
  let label := risk_label_of hr hrv spo2 skin_temp time_of_day in
  MkRow (py_round hr 1) (py_round hrv 1) (py_round spo2 1) (py_round skin_temp 1)
        activity time_of_day label.

End HeartRateModel.

(* ------------------------------------------------------------------ *)
(** ** alert.py                                                        *)
(* ------------------------------------------------------------------ *)

Module Alert.

Local Open Scope string_scope.

Definition ESC : string := String "027"%char "".
Definition NL : string := String "010"%char "".

Definition ALERT_COLORS : gmap string string :=
  <["NORMAL" := ESC +:+ "[92m"]>
    (<["WARNING" := ESC +:+ "[93m"]> (<["CRITICAL" := ESC +:+ "[91m"]> ∅)).
Definition RESET : string := ESC +:+ "[0m".

Definition COOLDOWN_SECONDS : gmap string Q :=
  <["NORMAL" := 5%Q]> (<["WARNING" := 10%Q]> (<["CRITICAL" := 3%Q]> ∅)).

Definition messages : gmap string string :=
  <["NORMAL" := "✅ Driver status is NORMAL. All readings within safe range."]>
    (<["WARNING" := "⚠️  WARNING! Signs of fatigue or elevated heart rate detected."]>
       (<["CRITICAL" := "🚨 CRITICAL ALERT! Immediate danger — pull over now!"]> ∅)).

Definition actions : gmap string string :=
  <["NORMAL" := "Continue monitoring."]>
    (<["WARNING" := "Recommend rest break in 15 minutes."]>
       (<["CRITICAL" := "STOP VEHICLE IMMEDIATELY. Sound alarm."]> ∅)).

(** What a call does besides returning: lines printed, and the thread
    started on [_play_beep]. *)
Inductive effect : Type :=
  | Print (text : string)
  | StartBeepThread (risk_level : string).

(** The dictionary returned: the two-entry one of a suppressed call, or
    the full alert. *)
Record alert_dict : Type := MkAlert {
  suppressed : bool;
  risk_level : string;
  timestamp : option string;
  source : option string;
  message : option string;
  action : option string;
  details : option (list (string * string))
}.

Fixpoint repeat_string (s : string) (n : nat) : string :=
  match n with
  | O => ""
  | S n' => s +:+ repeat_string s n'
  end.

(** [trigger_alert], on the module's [_last_alert_time] dictionary; [now]
    is the reading of [time.time()], [stamp] the text [time.strftime]
    returns, [details] the optional dictionary in insertion order with its
    values as they print. *)
Definition trigger_alert (_last_alert_time : gmap string Q) (now : Q) (stamp : string)
    (risk_level source : string) (details : option (list (string * string)))
  : gmap string Q * alert_dict * list effect :=
  let cooldown := dict_get COOLDOWN_SECONDS risk_level 5%Q in
  let in_cooldown :=
    match _last_alert_time !! risk_level with
    | Some last => Qltb (now - last)%Q cooldown
    | None => false
    end in
  if in_cooldown then
    (_last_alert_time, MkAlert true risk_level None None None None None, [])
  else
    let _last_alert_time := <[risk_level := now]> _last_alert_time in
    let msg := dict_get messages risk_level "Unknown risk level" in
    let act := dict_get actions risk_level "" in
    let det := match details with Some d => d | None => [] end in
    let alert := MkAlert false risk_level (Some stamp) (Some source)
                         (Some msg) (Some act) (Some det) in
    let color := dict_get ALERT_COLORS risk_level "" in
    let prints :=
      ([Print (NL +:+ color +:+ repeat_string "=" 55);
       Print ("  [" +:+ stamp +:+ "] " +:+ source +:+ " ALERT");
       Print ("  RISK: " +:+ risk_level);
       Print ("  " +:+ msg);
       Print ("  ACTION: " +:+ act)]
      ++ map (fun kv => Print ("  " +:+ fst kv +:+ ": " +:+ snd kv)) det
      ++ [Print (repeat_string "=" 55 +:+ RESET +:+ NL)])%list in
    let sound :=
      if bool_decide (risk_level = "WARNING") || bool_decide (risk_level = "CRITICAL")
      then [StartBeepThread risk_level] else [] in
    (_last_alert_time, alert, (prints ++ sound)%list).

(** One call as the caller makes it. *)
Record call : Type := MkCall {
  call_now : Q;
  call_stamp : string;
  call_level : string;
  call_source : string;
  call_details : option (list (string * string))
}.

(** A sequence of calls on one process: the dictionary at the end and the
    dictionaries returned, in order. *)
Fixpoint trigger_alerts (last : gmap string Q) (calls : list call)
  : gmap string Q * list alert_dict :=
  match calls with
  | [] => (last, [])
  | c :: rest =>
      let '(last', a, _) :=
        trigger_alert last (call_now c) (call_stamp c) (call_level c)
                      (call_source c) (call_details c) in
      let '(final, out) := trigger_alerts last' rest in
      (final, a :: out)
  end.

(** [_play_beep]: the tone handed to the mixer, by its frequency (Hz),
    its duration (ms) and its number of samples at 44100 Hz; [None] when
    the function returns without playing.  [SOUND_AVAILABLE] is the
    module's flag (whether pygame could be loaded). *)
Record tone : Type := MkTone {
  tone_freq : Z;
  tone_duration_ms : Z;
  tone_samples : Z
}.

Definition freq_map : gmap string Z :=
  <["WARNING" := 800%Z]> (<["CRITICAL" := 1200%Z]> ∅).

Definition _play_beep (SOUND_AVAILABLE : bool) (risk_level : string) : option tone :=
  if negb SOUND_AVAILABLE then None
  else
    let freq := dict_get freq_map risk_level 0%Z in
    if (freq =? 0)%Z then None
    else
      let duration_ms := if bool_decide (risk_level = "WARNING") then 500%Z else 1000%Z in
      Some (MkTone freq duration_ms (44100 * duration_ms / 1000)%Z).

(** [AlertLogger]: the attribute [log]. *)
Definition AlertLogger : Type := list alert_dict.

(** [AlertLogger.add]. *)
Definition add (log : AlertLogger) (alert : alert_dict) : AlertLogger :=
  if negb (suppressed alert) then (log ++ [alert])%list else log.

Record summary : Type := MkSummary {
  total_alerts : Z;
  critical : Z;
  warnings : Z;
  normal : Z
}.

(** [sum(1 for a in log if a["risk_level"] == level)]. *)
Definition count_level (level : string) (log : AlertLogger) : Z :=
  Z.of_nat (length (filter (fun a => risk_level a = level) log)).

(** [AlertLogger.get_summary]. *)
Definition get_summary (log : AlertLogger) : summary :=
  let total := Z.of_nat (length log) in
  let critical := count_level "CRITICAL" log in
  let warnings := count_level "WARNING" log in
  MkSummary total critical warnings (total - critical - warnings)%Z.

(** [AlertLogger.clear]. *)
Definition clear (log : AlertLogger) : AlertLogger := [].

End Alert.

(* ------------------------------------------------------------------ *)
(** ** app.py                                                          *)
(* ------------------------------------------------------------------ *)

Module App.

Local Open Scope Q_scope.

(** [get_risk_level]; [data] is the dictionary of sensor readings. *)
Definition get_risk_level (data : gmap string Q) (ear_thresh hr_critical spo2_warn : Q)
  : result string :=
  do hr <- getitem data "heart_rate" ;
  do spo2 <- getitem data "spo2" ;
  do ear <- getitem data "ear" ;
  do hrv <- getitem data "hrv" ;
  if Qltb hr_critical hr || Qltb spo2 (spo2_warn - 3)
     || Qltb ear (ear_thresh - 0.05) || Qltb hrv 15
  then Ok "CRITICAL"%string
  else if Qltb (hr_critical - 20) hr || Qltb spo2 spo2_warn || Qltb ear ear_thresh
  then Ok "WARNING"%string
  else
    do yawn_count <- getitem data "yawn_count" ;
    if Qgeb yawn_count 3 then Ok "WARNING"%string else Ok "NORMAL"%string.

(** [random.uniform(a, b)], from the draw [u] of [random.random()]. *)
Definition uniform (a b u : Q) : Q := a + (b - a) * u.

(** The random draws of one call of [simulate_sensor_data], in the order
    the dictionary display evaluates them: five draws of [random()] and
    the two integers [randint] returns. *)
Record draws : Type := MkDraws {
  u_heart_rate : Q;
  u_hrv : Q;
  u_spo2 : Q;
  u_skin_temp : Q;
  u_ear : Q;
  n_blink_rate : Z;
  n_yawn_count : Z
}.

Definition sensor_dict (heart_rate hrv spo2 skin_temp ear : Q)
    (blink_rate yawn_count activity : Z) : gmap string Q :=
  <["heart_rate"%string := heart_rate]>
    (<["hrv"%string := hrv]>
       (<["spo2"%string := spo2]>
          (<["skin_temp"%string := skin_temp]>
             (<["ear"%string := ear]>
                (<["blink_rate"%string := inject_Z blink_rate]>
                   (<["yawn_count"%string := inject_Z yawn_count]>
                      (<["activity"%string := inject_Z activity]> ∅))))))).

(** [simulate_sensor_data]. *)
Definition simulate_sensor_data (scenario : string) (d : draws) : gmap string Q :=
  if bool_decide (scenario = "normal"%string) then
    sensor_dict (uniform 65 85 (u_heart_rate d)) (uniform 40 65 (u_hrv d))
                (uniform 97 99.5 (u_spo2 d)) (uniform 33 35.5 (u_skin_temp d))
                (uniform 0.28 0.38 (u_ear d)) (n_blink_rate d) (n_yawn_count d) 1
  else if bool_decide (scenario = "warning"%string) then
    sensor_dict (uniform 105 125 (u_heart_rate d)) (uniform 20 30 (u_hrv d))
                (uniform 94 96.5 (u_spo2 d)) (uniform 36 37.5 (u_skin_temp d))
                (uniform 0.20 0.26 (u_ear d)) (n_blink_rate d) (n_yawn_count d) 0
  else
    sensor_dict (uniform 135 155 (u_heart_rate d)) (uniform 10 18 (u_hrv d))
                (uniform 91 94 (u_spo2 d)) (uniform 37.5 39 (u_skin_temp d))
                (uniform 0.12 0.22 (u_ear d)) (n_blink_rate d) (n_yawn_count d) 0.

(** The ranges [randint] draws the two integers from, per scenario. *)
Definition randint_ranges (scenario : string) : (Z * Z) * (Z * Z) :=
  if bool_decide (scenario = "normal"%string) then ((12, 20), (0, 1))%Z
  else if bool_decide (scenario = "warning"%string) then ((5, 12), (2, 4))%Z
  else ((1, 5), (4, 8))%Z.

(** Lines 195-207: the history kept in the session state ([None] before
    the first run), after one more reading. *)
Definition update_history {A : Type} (history : option (list A)) (reading : A) : list A :=
  let h := match history with Some h => h | None => [] end in
  let h := (h ++ [reading])%list in
  if (20 <? length h)%nat then drop (length h - 20) h else h.

End App.

(* ================================================================== *)
(** * Part II: properties                                              *)
(* ================================================================== *)

(* ------------------------------------------------------------------ *)
(** ** The per-frame state machine of the detector                     *)
(* ------------------------------------------------------------------ *)

Module DrowsinessProps.
Import Drowsiness.

Local Open Scope Z_scope.

(** *** Synthetic landmark arrays

    An eye contour whose two vertical distances are [opening] and whose
    horizontal distance is [width]; likewise a mouth; and a 68-point array
    with both eyes and the mouth so shaped. *)
Definition eye_of (opening width : Z) : list point :=
  [(0, 0); (2, opening); (4, opening); (width, 0); (4, 0); (2, 0)].

Definition mouth_of (opening width : Z) : list point :=
  repeat (0, 0) 12 ++
  [(0, 0); (1, opening); (2, opening); (3, opening); (width, 0); (3, 0); (2, 0); (1, 0)].

Definition face_of (eye_opening eye_width mouth_opening mouth_width : Z) : list point :=
  repeat (0, 0) 36 ++ eye_of eye_opening eye_width ++ eye_of eye_opening eye_width
    ++ mouth_of mouth_opening mouth_width.

(** EAR 0.10 and MAR 0.10; EAR 0.30 and MAR 0.10; EAR 0.30 and MAR 0.70. *)
Definition closed_face : list point := face_of 1 10 1 10.
Definition open_face : list point := face_of 3 10 1 10.
Definition yawning_face : list point := face_of 3 10 7 10.

Example closed_face_ratios : ratios binary64 closed_face = Ok (0.1%float, 0.1%float).
Proof. vm_compute. reflexivity. Qed.

Example open_face_ratios : ratios binary64 open_face = Ok (0.3%float, 0.1%float).
Proof. vm_compute. reflexivity. Qed.

Example yawning_face_ratios : ratios binary64 yawning_face = Ok (0.3%float, 0.7%float).
Proof. vm_compute. reflexivity. Qed.

Example thresholds_binary64 :
  EAR_THRESHOLD binary64 = 0.25%float /\ YAWN_THRESHOLD binary64 = 0.6%float.
Proof. split; vm_compute; reflexivity. Qed.

Section Laws.
Context {F : Type} (num : arith F).

(** The face's eyes read as closed ([ear < EAR_THRESHOLD]), resp. open
    (the [else] branch), resp. its mouth as yawning. *)
Definition eyes_closed (shape : list point) : bool :=
  match ratios num shape with
  | Ok (ear, _) => flt num ear (EAR_THRESHOLD num)
  | Raise _ => false
  end.

Definition eyes_open (shape : list point) : bool :=
  match ratios num shape with
  | Ok (ear, _) => negb (flt num ear (EAR_THRESHOLD num))
  | Raise _ => false
  end.

(** A sequence of frames, each showing one face. *)
Definition single_faces (shapes : list (list point)) : list (list (list point)) :=
  map (fun shape => [shape]) shapes.

Ltac branches :=
  repeat match goal with
         | |- context [if ?b then _ else _] => destruct b eqn:?
         | |- context [match ?r with Ok _ => _ | Raise _ => _ end] => destruct r eqn:?
         | |- context [let '(_, _) := ?p in _] => destruct p eqn:?
         | H : Ok _ = Ok _ |- _ => inversion H; subst; clear H
         | H : (_ <=? _) = true |- _ => apply Z.leb_le in H
         | H : (_ <=? _) = false |- _ => apply Z.leb_gt in H
         end.

(** The attributes after one face with ratios [ear], [mar]. *)
Definition after_face (self : DrowsinessDetector) (ear mar : F) : DrowsinessDetector :=
  let closed := flt num ear (EAR_THRESHOLD num) in
  let yawn := flt num (YAWN_THRESHOLD num) mar in
  {| counter := if closed then counter self + 1 else 0;
     blink_count :=
       if closed then blink_count self
       else if 3 <=? counter self then blink_count self + 1 else blink_count self;
     yawn_count :=
       if yawn then (if yawning self then yawn_count self else yawn_count self + 1)
       else yawn_count self;
     drowsy :=
       if closed then (if EAR_CONSEC_FRAMES <=? counter self + 1 then true else drowsy self)
       else false;
     yawning := yawn |}.

Lemma face_logic self status ear mar :
  fst (let '(d, s) := drowsiness_logic num self status ear in yawn_logic num d s mar)
  = after_face self ear mar.
Proof.
  unfold drowsiness_logic, yawn_logic, after_face.
  destruct self; simpl. branches; simpl in *; try reflexivity; try congruence; try lia.
Qed.

Lemma for_rects_cons self status shape rest ear mar :
  ratios num shape = Ok (ear, mar) ->
  exists status',
    for_rects num self status (shape :: rest)
    = for_rects num (after_face self ear mar) status' rest.
Proof.
  intros Hr. simpl. rewrite Hr.
  pose proof (face_logic self (set_face_detected status) ear mar) as Hf.
  destruct (drowsiness_logic num self (set_face_detected status) ear) as [d s].
  destruct (yawn_logic num d s mar) as [d' s']. simpl in Hf. subst d'.
  exists s'. reflexivity.
Qed.

Lemma process_frame_detector self frame :
  fst (process_frame num self frame)
  = fst (for_rects num self
           (MkStatus false (blink_count self) (yawn_count self) false false "NORMAL")
           frame).
Proof.
  unfold process_frame.
  destruct (for_rects num self _ frame) as [d [s | e]]; reflexivity.
Qed.

Lemma process_single_face self shape ear mar :
  ratios num shape = Ok (ear, mar) ->
  fst (process_frame num self [shape]) = after_face self ear mar.
Proof.
  intros Hr. rewrite process_frame_detector.
  destruct (for_rects_cons self
              (MkStatus false (blink_count self) (yawn_count self) false false "NORMAL")
              shape [] ear mar Hr) as [s' ->].
  reflexivity.
Qed.

Lemma eyes_closed_inv shape :
  eyes_closed shape = true ->
  exists ear mar, ratios num shape = Ok (ear, mar)
                  /\ flt num ear (EAR_THRESHOLD num) = true.
Proof.
  unfold eyes_closed. destruct (ratios num shape) as [[ear mar] | e]; [|discriminate].
  intros H. exists ear, mar. auto.
Qed.

Lemma eyes_open_inv shape :
  eyes_open shape = true ->
  exists ear mar, ratios num shape = Ok (ear, mar)
                  /\ flt num ear (EAR_THRESHOLD num) = false.
Proof.
  unfold eyes_open. destruct (ratios num shape) as [[ear mar] | e]; [|discriminate].
  intros H. exists ear, mar. split; [reflexivity|]. now apply negb_true_iff.
Qed.

(** A closed-eye run: [n] single-face frames with closed eyes add [n] to
    the counter and leave [blink_count] alone. *)
Lemma closed_run self shapes :
  Forall (fun shape => eyes_closed shape = true) shapes ->
  let d := run num self (single_faces shapes) in
  counter d = counter self + Z.of_nat (length shapes)
  /\ blink_count d = blink_count self.
Proof.
  intros Hall. revert self.
  induction Hall as [| shape shapes Hc _ IH]; intros self.
  - simpl. split; [lia | reflexivity].
  - destruct (eyes_closed_inv shape Hc) as (ear & mar & Hr & Hlt).
    cbn [single_faces map run fold_left length].
    rewrite (process_single_face self shape ear mar Hr).
    specialize (IH (after_face self ear mar)).
    unfold run, single_faces in IH. cbv zeta in IH.
    destruct IH as [IHc IHb]. rewrite IHc, IHb.
    unfold after_face. rewrite Hlt. simpl. split; [lia | reflexivity].
Qed.

(** One frame, any number of faces: each face adds at most one blink and
    at most one yawn, and never takes one away; the counter stays
    non-negative. *)
Lemma after_face_bounds self ear mar :
  let d := after_face self ear mar in
  blink_count self <= blink_count d <= blink_count self + 1
  /\ yawn_count self <= yawn_count d <= yawn_count self + 1
  /\ (0 <= counter self -> 0 <= counter d).
Proof.
  unfold after_face; simpl. branches; lia.
Qed.

Lemma for_rects_bounds rects : forall self status,
  let d := fst (for_rects num self status rects) in
  blink_count self <= blink_count d <= blink_count self + Z.of_nat (length rects)
  /\ yawn_count self <= yawn_count d <= yawn_count self + Z.of_nat (length rects)
  /\ (0 <= counter self -> 0 <= counter d).
Proof.
  induction rects as [| shape rest IH]; intros self status.
  - simpl. lia.
  - destruct (ratios num shape) as [[ear mar] | e] eqn:Hr.
    + destruct (for_rects_cons self status shape rest ear mar Hr) as [s' Heq].
      cbv zeta. rewrite Heq.
      specialize (IH (after_face self ear mar) s'). cbv zeta in IH.
      pose proof (after_face_bounds self ear mar) as Hb. cbv zeta in Hb.
      rewrite length_cons. lia.
    + cbn [for_rects]. rewrite Hr. simpl fst. rewrite length_cons. lia.
Qed.

Lemma process_frame_bounds self frame :
  let d := fst (process_frame num self frame) in
  blink_count self <= blink_count d <= blink_count self + Z.of_nat (length frame)
  /\ yawn_count self <= yawn_count d <= yawn_count self + Z.of_nat (length frame)
  /\ (0 <= counter self -> 0 <= counter d).
Proof.
  cbv zeta. rewrite process_frame_detector. apply for_rects_bounds.
Qed.

Lemma run_app self frames frames' :
  run num self (frames ++ frames') = run num (run num self frames) frames'.
Proof. unfold run. apply fold_left_app. Qed.

Lemma run_bounds frames : forall self,
  let d := run num self frames in
  blink_count self <= blink_count d
  /\ yawn_count self <= yawn_count d
  /\ (0 <= counter self -> 0 <= counter d).
Proof.
  induction frames as [| frame frames IH]; intros self.
  - simpl. lia.
  - cbn [run fold_left].
    specialize (IH (fst (process_frame num self frame))).
    unfold run in IH. cbv zeta in IH.
    pose proof (process_frame_bounds self frame) as Hb. cbv zeta in Hb.
    lia.
Qed.

End Laws.



(** C1 (as the code has it). When an eye-open frame ends a closed-eye run
    (single-face frames, the counter at 0 before the run), [blink_count]
    grows by one exactly when the run is at least 3 frames long; there is
    no upper bound on the run, so a run of [EAR_CONSEC_FRAMES] frames or
    more is counted as a blink too. *)
Theorem blink_counted_when_run_ends :
  forall (F : Type) (num : arith F) (self : DrowsinessDetector)
         (shapes : list (list point)) (shape : list point),
    counter self = 0 ->
    Forall (fun s => eyes_closed num s = true) shapes ->
    eyes_open num shape = true ->
    let d := run num self (single_faces shapes) in
    let d' := fst (process_frame num d [shape]) in
    counter d = Z.of_nat (length shapes)
    /\ counter d' = 0
    /\ blink_count d'
       = (if 3 <=? Z.of_nat (length shapes) then blink_count self + 1
          else blink_count self).
Proof.
  intros F num self shapes shape H0 Hall Ho d d'.
  pose proof (closed_run num self shapes Hall) as Hrun. cbv zeta in Hrun.
  fold d in Hrun. destruct Hrun as [Hc Hb]. rewrite H0 in Hc. simpl in Hc.
  destruct (eyes_open_inv num shape Ho) as (ear & mar & Hr & Hlt).
  subst d'. rewrite (process_single_face num d shape ear mar Hr).
  unfold after_face. rewrite Hlt. simpl. rewrite Hc, Hb. auto.
Qed.

Lemma blink_counted_when_run_ends_witness :
  blink_count (fst (process_frame binary64
                      (run binary64 __init__ (single_faces (repeat closed_face 5)))
                      [open_face])) = 1
  /\ blink_count (fst (process_frame binary64
                         (run binary64 __init__ (single_faces (repeat closed_face 2)))
                         [open_face])) = 0.
Proof.
  split.
  - refine (proj2 (proj2 (blink_counted_when_run_ends float binary64 __init__
                            (repeat closed_face 5) open_face _ _ _))).
    + reflexivity.
    + repeat constructor.
    + vm_compute. reflexivity.
  - refine (proj2 (proj2 (blink_counted_when_run_ends float binary64 __init__
                            (repeat closed_face 2) open_face _ _ _))).
    + reflexivity.
    + repeat constructor.
    + vm_compute. reflexivity.
Defined.

(** C1 fails as stated: after a run of 20 closed-eye frames (a length
    outside [3, EAR_CONSEC_FRAMES)), the eye-open frame that ends the run
    increments [blink_count]. *)
Lemma blink_counted_after_drowsy_run :
  let d20 := run binary64 __init__ (single_faces (repeat closed_face 20)) in
  let d21 := fst (process_frame binary64 d20 [open_face]) in
  counter d20 = 20
  /\ drowsy d20 = true
  /\ ~ (3 <= counter d20 < EAR_CONSEC_FRAMES)
  /\ eyes_open binary64 open_face = true
  /\ blink_count d20 = 0
  /\ blink_count d21 = 1.
Proof.
  cbv zeta. repeat split; try (vm_compute; reflexivity).
  vm_compute. intros [_ H]. discriminate H.
Qed.

(** C2 (as the code has it). On a frame with no face the attributes are
    left unchanged and the status has [face_detected = false], both flags
    false and the counts of the detector; its risk level is NORMAL while
    [yawn_count < 3] and WARNING once [yawn_count >= 3]. *)
Theorem no_face_frame :
  forall (F : Type) (num : arith F) (self : DrowsinessDetector),
    process_frame num self []
    = (self,
       Ok (MkStatus false (blink_count self) (yawn_count self) false false
                    (if 3 <=? yawn_count self then "WARNING" else "NORMAL"))).
Proof.
  intros F num self. unfold process_frame, risk_of. simpl. reflexivity.
Qed.

(** C2 fails as stated: after three yawns, a frame with no face is
    reported at risk level WARNING, not NORMAL. *)
Lemma no_face_frame_after_three_yawns :
  let frames := [[yawning_face]; [open_face]; [yawning_face]; [open_face]; [yawning_face]] in
  let d := run binary64 __init__ frames in
  yawn_count d = 3
  /\ process_frame binary64 d []
     = (d, Ok (MkStatus false 0 3 false false "WARNING")).
Proof.
  cbv zeta. split; vm_compute; reflexivity.
Qed.

(** C9 (as the code has it). Across every sequence of [process_frame]
    calls on one detector, [blink_count] and [yawn_count] never decrease
    and the closed-eye counter is never negative; in one frame each of the
    two counts grows by at most one per face in the frame, hence by at
    most 1 on a frame with at most one face. *)
Theorem counters_monotone :
  forall (F : Type) (num : arith F) (frames : list (list (list point)))
         (frame : list (list point)),
    let d := run num __init__ frames in
    let d' := fst (process_frame num d frame) in
    0 <= counter d
    /\ 0 <= blink_count d /\ 0 <= yawn_count d
    /\ blink_count d <= blink_count d' <= blink_count d + Z.of_nat (length frame)
    /\ yawn_count d <= yawn_count d' <= yawn_count d + Z.of_nat (length frame)
    /\ ((length frame <= 1)%nat ->
        blink_count d' <= blink_count d + 1 /\ yawn_count d' <= yawn_count d + 1)
    /\ (forall more : list (list (list point)),
           blink_count d <= blink_count (run num d more)
           /\ yawn_count d <= yawn_count (run num d more)).
Proof.
  intros F num frames frame d d'.
  pose proof (run_bounds num frames __init__) as Hr. cbv zeta in Hr. fold d in Hr.
  pose proof (process_frame_bounds num d frame) as Hf. cbv zeta in Hf. fold d' in Hf.
  simpl in Hr.
  repeat split; try lia.
  - pose proof (run_bounds num more d) as Hm. cbv zeta in Hm. lia.
  - pose proof (run_bounds num more d) as Hm. cbv zeta in Hm. lia.
Qed.

(** C9 fails as stated: one frame with three faces (yawning, not yawning,
    yawning) raises [yawn_count] by 2. *)
Lemma two_yawns_in_one_frame :
  yawn_count __init__ = 0
  /\ yawn_count (fst (process_frame binary64 __init__ [yawning_face; open_face; yawning_face])) = 2.
Proof.
  split; vm_compute; reflexivity.
Qed.

(* ------------------------------------------------------------------ *)
(** *** More on frames: malformed faces, empty frames, invariants       *)
(* ------------------------------------------------------------------ *)

Section FrameLaws.
Context {F : Type} (num : arith F).

Lemma item_slice {A : Type} (a : list A) (start stop i : nat) :
  item (slice a start stop) i
  = if (i <? stop - start)%nat then item a (start + i) else Raise IndexError.
Proof.
  unfold item, slice. destruct (Nat.ltb_spec i (stop - start)).
  - rewrite lookup_take_lt by lia. rewrite lookup_drop. reflexivity.
  - rewrite lookup_take_ge by lia. reflexivity.
Qed.

Ltac open_ratios :=
  unfold ratios, eye_aspect_ratio, mouth_aspect_ratio;
  rewrite !item_slice;
  cbn [L_START L_END R_START R_END M_START M_END Nat.sub Nat.ltb Nat.leb Nat.add];
  unfold item.

Lemma ratios_short (shape : list point) :
  (length shape < 68)%nat -> ratios num shape = Raise IndexError.
Proof.
  intros Hlen. open_ratios.
  repeat match goal with
         | H : shape !! _ = Some _ |- _ => apply lookup_lt_Some in H
         | |- context [shape !! ?k] =>
             destruct (shape !! k) eqn:?; cbn [rbind]; [| reflexivity]
         end.
  lia.
Qed.

Lemma ratios_long (shape : list point) :
  (68 <= length shape)%nat -> exists ear mar : F, ratios num shape = Ok (ear, mar).
Proof.
  intros Hlen. open_ratios.
  repeat match goal with
         | H : shape !! _ = None |- _ => apply lookup_ge_None_1 in H; lia
         | |- context [shape !! ?k] => destruct (shape !! k) eqn:?; cbn [rbind]
         end.
  eexists _, _. reflexivity.
Qed.

Lemma ratios_extra (shape extra : list point) :
  (68 <= length shape)%nat -> ratios num (shape ++ extra) = ratios num shape.
Proof.
  intros Hlen. open_ratios.
  rewrite !lookup_app_l by lia. reflexivity.
Qed.

(** The faces before a malformed one are processed, the ones after it
    are not. *)
Lemma for_rects_until_raise (good : list (list point)) :
  forall (self : DrowsinessDetector) (status : Status) (bad : list point)
         (rest : list (list point)) (e : exn),
    Forall (fun shape => (68 <= length shape)%nat) good ->
    ratios num bad = Raise e ->
    for_rects num self status (good ++ bad :: rest)
    = (fst (for_rects num self status good), Raise e).
Proof.
  induction good as [| shape good IH]; intros self status bad rest e Hgood Hbad.
  - cbn [app for_rects]. rewrite Hbad. reflexivity.
  - inversion Hgood as [| ? ? Hshape Hgood']; subst.
    destruct (ratios_long shape Hshape) as (ear & mar & Hr).
    cbn [app].
    destruct (for_rects_cons num self status shape (good ++ bad :: rest) ear mar Hr)
      as [s1 ->].
    cbn [for_rects]. rewrite Hr.
    pose proof (face_logic num self (set_face_detected status) ear mar) as Hf.
    destruct (drowsiness_logic num self (set_face_detected status) ear) as [d s].
    destruct (yawn_logic num d s mar) as [d' s']. cbn [fst] in Hf. subst d'.
    rewrite (IH (after_face num self ear mar) s1 bad rest e Hgood' Hbad).
    f_equal.
    destruct (for_rects_cons num self status shape good ear mar Hr) as [s2 Heq].
    cbn [for_rects] in Heq. rewrite Hr in Heq.
    pose proof (face_logic num self (set_face_detected status) ear mar) as Hf2.
    destruct (drowsiness_logic num self (set_face_detected status) ear) as [d2 s3].
    destruct (yawn_logic num d2 s3 mar) as [d3 s4]. cbn [fst] in Hf2. subst d3.
    assert (Hd : forall st st', fst (for_rects num (after_face num self ear mar) st good)
                                = fst (for_rects num (after_face num self ear mar) st' good)).
    { clear. generalize (after_face num self ear mar). induction good as [| sh g IHg];
        intros d st st'; [reflexivity |].
      cbn [for_rects]. destruct (ratios num sh) as [[ea ma] | ex]; [| reflexivity].
      pose proof (face_logic num d (set_face_detected st) ea ma) as H1.
      pose proof (face_logic num d (set_face_detected st') ea ma) as H2.
      destruct (drowsiness_logic num d (set_face_detected st) ea) as [a1 b1].
      destruct (yawn_logic num a1 b1 ma) as [a2 b2].
      destruct (drowsiness_logic num d (set_face_detected st') ea) as [a3 b3].
      destruct (yawn_logic num a3 b3 ma) as [a4 b4].
      cbn [fst] in H1, H2. subst a2 a4. apply IHg. }
    apply Hd.
Qed.

(** [drowsy] is set exactly when the counter has reached the threshold. *)
Definition drowsy_matches_counter (d : DrowsinessDetector) : Prop :=
  drowsy d = (EAR_CONSEC_FRAMES <=? counter d).

(** Each blink takes three closed-eye faces and an open one; each yawn
    counted takes a face that was not yawning before it. *)
Definition within_budget (d : DrowsinessDetector) (budget : Z) : Prop :=
  0 <= counter d
  /\ 4 * blink_count d + counter d <= budget
  /\ 2 * yawn_count d - (if yawning d then 1 else 0) <= budget.

Lemma after_face_invariants (self : DrowsinessDetector) (ear mar : F) (budget : Z) :
  drowsy_matches_counter self -> within_budget self budget ->
  drowsy_matches_counter (after_face num self ear mar)
  /\ within_budget (after_face num self ear mar) (budget + 1).
Proof.
  unfold drowsy_matches_counter, within_budget, after_face, EAR_CONSEC_FRAMES.
  destruct self as [c b y dr yw]. cbn [counter blink_count yawn_count drowsy yawning].
  intros Hd (Hc & Hb & Hy).
  destruct (flt num ear (EAR_THRESHOLD num)), (flt num (YAWN_THRESHOLD num) mar), yw;
    cbn [counter blink_count yawn_count drowsy yawning].
  all: destruct (Z.leb_spec 20 (c + 1)), (Z.leb_spec 3 c), (Z.leb_spec 20 c);
    try lia; subst dr; repeat split; try reflexivity; try lia.
Qed.

Lemma for_rects_invariants (rects : list (list point)) :
  forall (self : DrowsinessDetector) (status : Status) (budget : Z),
    drowsy_matches_counter self -> within_budget self budget ->
    drowsy_matches_counter (fst (for_rects num self status rects))
    /\ within_budget (fst (for_rects num self status rects))
                     (budget + Z.of_nat (length rects)).
Proof.
  induction rects as [| shape rest IH]; intros self status budget Hd Hb.
  - cbn [for_rects fst length]. rewrite Z.add_0_r. auto.
  - destruct (ratios num shape) as [[ear mar] | e] eqn:Hr.
    + destruct (for_rects_cons num self status shape rest ear mar Hr) as [s' ->].
      destruct (after_face_invariants self ear mar budget Hd Hb) as [Hd' Hb'].
      destruct (IH (after_face num self ear mar) s' (budget + 1) Hd' Hb') as [Hd'' Hb''].
      split; [exact Hd'' |].
      rewrite length_cons.
      replace (budget + Z.of_nat (S (length rest)))
        with (budget + 1 + Z.of_nat (length rest)) by lia.
      exact Hb''.
    + cbn [for_rects]. rewrite Hr. cbn [fst]. split; [exact Hd |].
      destruct Hb as (H1 & H2 & H3). unfold within_budget. lia.
Qed.

Lemma run_invariants (frames : list (list (list point))) :
  forall (self : DrowsinessDetector) (budget : Z),
    drowsy_matches_counter self -> within_budget self budget ->
    drowsy_matches_counter (run num self frames)
    /\ within_budget (run num self frames)
                     (budget + Z.of_nat (length (concat frames))).
Proof.
  induction frames as [| frame frames IH]; intros self budget Hd Hb.
  - cbn [run fold_left concat length]. rewrite Z.add_0_r. auto.
  - cbn [run fold_left concat].
    rewrite (process_frame_detector num self frame).
    destruct (for_rects_invariants frame self
                (MkStatus false (blink_count self) (yawn_count self) false false "NORMAL")
                budget Hd Hb) as [Hd' Hb'].
    specialize (IH _ (budget + Z.of_nat (length frame)) Hd' Hb').
    unfold run in IH. destruct IH as [IH1 IH2]. split; [exact IH1 |].
    rewrite length_app.
    replace (budget + Z.of_nat (length frame + length (concat frames))%nat)
      with (budget + Z.of_nat (length frame) + Z.of_nat (length (concat frames))) by lia.
    exact IH2.
Qed.

End FrameLaws.

(** X1. The two ratios of a face are computed exactly when its landmark
    array has at least 68 rows: a shorter array raises [IndexError], and
    rows beyond the 68th are ignored. *)
Theorem landmarks_needed :
  forall (F : Type) (num : arith F) (shape : list point),
    ((length shape < 68)%nat -> ratios num shape = Raise IndexError)
    /\ ((68 <= length shape)%nat ->
        (exists ear mar : F, ratios num shape = Ok (ear, mar))
        /\ forall extra : list point, ratios num (shape ++ extra) = ratios num shape).
Proof.
  intros F num shape. split.
  - apply ratios_short.
  - intros Hlen. split; [apply ratios_long; exact Hlen |].
    intros extra. apply ratios_extra. exact Hlen.
Qed.

(** X2. A malformed face in a frame makes [process_frame] raise
    [IndexError] with the detector already changed by the faces before it:
    the attributes are those the frame cut before the malformed face would
    leave, and the faces after it are not looked at. *)
Theorem malformed_face_partial_update :
  forall (F : Type) (num : arith F) (self : DrowsinessDetector)
         (good : list (list point)) (bad : list point) (rest : list (list point)),
    Forall (fun shape => (68 <= length shape)%nat) good ->
    (length bad < 68)%nat ->
    process_frame num self (good ++ bad :: rest)
    = (fst (process_frame num self good), Raise IndexError).
Proof.
  intros F num self good bad rest Hgood Hbad.
  rewrite (process_frame_detector num self good).
  unfold process_frame.
  rewrite (for_rects_until_raise num good self _ bad rest IndexError Hgood
             (ratios_short num bad Hbad)).
  reflexivity.
Qed.

Lemma malformed_face_partial_update_witness :
  process_frame binary64 (MkDetector 2 0 0 false false)
                [closed_face; [(0, 0)]; open_face]
  = (MkDetector 3 0 0 false false, Raise IndexError).
Proof.
  assert (Hgood : Forall (fun shape : list point => (68 <= length shape)%nat) [closed_face])
    by (repeat constructor).
  assert (Hbad : (length [((0, 0)%Z : point)] < 68)%nat) by (cbn; lia).
  pose proof (malformed_face_partial_update float binary64 (MkDetector 2 0 0 false false)
                [closed_face] [(0, 0)] [open_face] Hgood Hbad) as H.
  etransitivity; [exact H |]. vm_compute. reflexivity.
Defined.

(** X3. Frames without a face are transparent: a sequence of frames
    leaves the detector as the same sequence without its empty frames
    does, so a closed-eye run continues across them. *)
Theorem empty_frames_transparent :
  forall (F : Type) (num : arith F) (self : DrowsinessDetector)
         (frames : list (list (list point))),
    run num self frames = run num self (filter (fun frame => frame <> []) frames).
Proof.
  intros F num self frames. revert self.
  induction frames as [| frame frames IH]; intros self; [reflexivity |].
  destruct frame as [| shape faces].
  - rewrite filter_cons_False by (intros H; apply H; reflexivity).
    cbn [run fold_left]. apply IH.
  - rewrite filter_cons_True by discriminate.
    cbn [run fold_left]. apply IH.
Qed.

(** X4. From a new detector, after any sequence of frames (several faces,
    malformed faces and empty frames included), [drowsy] is true exactly
    when the closed-eye counter is at least [EAR_CONSEC_FRAMES]. *)
Theorem drowsy_iff_counter_reached :
  forall (F : Type) (num : arith F) (frames : list (list (list point))),
    drowsy (run num __init__ frames)
    = (EAR_CONSEC_FRAMES <=? counter (run num __init__ frames)).
Proof.
  intros F num frames.
  apply (run_invariants num frames __init__ 0).
  - reflexivity.
  - unfold within_budget. cbn. lia.
Qed.

(** X5. From a new detector, the counts are bounded by the number of
    faces seen: four times [blink_count] plus the running counter is at
    most that number, and twice [yawn_count] at most that number plus
    one. *)
Theorem counts_bounded_by_faces :
  forall (F : Type) (num : arith F) (frames : list (list (list point))),
    let d := run num __init__ frames in
    let faces := Z.of_nat (length (concat frames)) in
    4 * blink_count d + counter d <= faces
    /\ 2 * yawn_count d <= faces + 1.
Proof.
  intros F num frames d faces.
  destruct (run_invariants num frames __init__ 0) as [_ (Hc & Hb & Hy)].
  - reflexivity.
  - unfold within_budget. cbn. lia.
  - fold d in Hc, Hb, Hy. fold faces in Hb, Hy.
    split; [lia |]. destruct (yawning d); lia.
Qed.

(* ------------------------------------------------------------------ *)
(** *** Yawns, and what the status reports                              *)
(* ------------------------------------------------------------------ *)

Section StatusLaws.
Context {F : Type} (num : arith F).

(** The face's mouth reads as yawning ([mar > YAWN_THRESHOLD]). *)
Definition mouth_yawning (shape : list point) : bool :=
  match ratios num shape with
  | Ok (_, mar) => flt num (YAWN_THRESHOLD num) mar
  | Raise _ => false
  end.

Lemma mouth_yawning_inv (shape : list point) :
  mouth_yawning shape = true ->
  exists ear mar, ratios num shape = Ok (ear, mar)
                  /\ flt num (YAWN_THRESHOLD num) mar = true.
Proof.
  unfold mouth_yawning. destruct (ratios num shape) as [[ear mar] | e]; [| discriminate].
  intros H. exists ear, mar. auto.
Qed.

Lemma yawn_episode_from (shapes : list (list point)) :
  forall self : DrowsinessDetector,
    Forall (fun shape => mouth_yawning shape = true) shapes ->
    shapes <> [] ->
    yawn_count (run num self (single_faces shapes))
    = yawn_count self + (if yawning self then 0 else 1)
    /\ yawning (run num self (single_faces shapes)) = true.
Proof.
  induction shapes as [| shape rest IH]; intros self Hall Hne; [congruence |].
  inversion Hall as [| ? ? Hy Hrest]; subst.
  destruct (mouth_yawning_inv shape Hy) as (ear & mar & Hr & Hlt).
  cbn [single_faces map run fold_left].
  rewrite (process_single_face num self shape ear mar Hr).
  destruct rest as [| shape' rest'].
  - cbn [map fold_left]. unfold after_face. rewrite Hlt.
    cbn [yawn_count yawning]. destruct (yawning self); split; try reflexivity; lia.
  - specialize (IH (after_face num self ear mar) Hrest ltac:(discriminate)).
    unfold run, single_faces in IH. destruct IH as [IHc IHy].
    split; [| exact IHy]. rewrite IHc.
    unfold after_face. rewrite Hlt. cbn [yawn_count yawning].
    destruct (yawning self); lia.
Qed.

(** What one face does to the status, given that its blink entry is up
    to date. *)
Lemma face_status (self : DrowsinessDetector) (status : Status) (ear mar : F) :
  status_blink_count status = blink_count self ->
  let r := (let '(d, s) := drowsiness_logic num self status ear in yawn_logic num d s mar) in
  status_blink_count (snd r) = blink_count (fst r)
  /\ status_yawn_count (snd r) = status_yawn_count status
  /\ face_detected (snd r) = face_detected status.
Proof.
  intros Hb. unfold drowsiness_logic, yawn_logic.
  destruct self as [c b y dr yw], status as [fd sb sy sd syw rl].
  cbn [counter blink_count yawn_count drowsy yawning face_detected status_blink_count
       status_yawn_count status_drowsy status_yawning risk_level] in *.
  subst sb.
  destruct (flt num ear (EAR_THRESHOLD num)), (flt num (YAWN_THRESHOLD num) mar),
    (EAR_CONSEC_FRAMES <=? c + 1), (3 <=? c); cbn; auto.
Qed.

Lemma for_rects_status (rects : list (list point)) :
  forall (self d : DrowsinessDetector) (status status' : Status),
    status_blink_count status = blink_count self ->
    for_rects num self status rects = (d, Ok status') ->
    status_blink_count status' = blink_count d
    /\ status_yawn_count status' = status_yawn_count status
    /\ face_detected status'
       = (face_detected status || match rects with [] => false | _ => true end).
Proof.
  induction rects as [| shape rest IH]; intros self d status status' Hb Hrun.
  - cbn [for_rects] in Hrun. inversion Hrun; subst. rewrite orb_false_r. auto.
  - cbn [for_rects] in Hrun.
    destruct (ratios num shape) as [[ear mar] | e]; [| discriminate Hrun].
    pose proof (face_status self (set_face_detected status) ear mar Hb) as Hf.
    cbv zeta in Hf.
    destruct (drowsiness_logic num self (set_face_detected status) ear) as [d1 s1].
    destruct (yawn_logic num d1 s1 mar) as [d2 s2].
    cbn [fst snd] in Hf. destruct Hf as (Hb2 & Hy2 & Hfd2).
    destruct (IH d2 d s2 status' Hb2 Hrun) as (Hb3 & Hy3 & Hfd3).
    split; [exact Hb3 |]. split; [rewrite Hy3, Hy2; reflexivity |].
    rewrite Hfd3, Hfd2. cbn [set_face_detected face_detected]. rewrite orb_true_r.
    reflexivity.
Qed.

End StatusLaws.

(** X6. A yawn that lasts several frames is counted once: over any
    non-empty run of single-face frames with [mar > YAWN_THRESHOLD],
    [yawn_count] grows by one if the detector was not yawning before the
    run and not at all if it was, and the detector is yawning after it. *)
Theorem yawn_counted_once :
  forall (F : Type) (num : arith F) (self : DrowsinessDetector)
         (shapes : list (list point)),
    shapes <> [] ->
    Forall (fun shape => mouth_yawning num shape = true) shapes ->
    let d := run num self (single_faces shapes) in
    yawn_count d = yawn_count self + (if yawning self then 0 else 1)
    /\ yawning d = true.
Proof.
  intros F num self shapes Hne Hall d. subst d.
  apply yawn_episode_from; assumption.
Qed.

Lemma yawn_counted_once_witness :
  yawn_count (run binary64 __init__ (single_faces (repeat yawning_face 7))) = 1
  /\ yawning (run binary64 __init__ (single_faces (repeat yawning_face 7))) = true.
Proof.
  refine (yawn_counted_once float binary64 __init__ (repeat yawning_face 7) _ _).
  - discriminate.
  - repeat constructor.
Defined.

(** X7. The status a frame returns carries the blink count after the
    frame but the yawn count before it (the entry is never refreshed), and
    its risk level is computed from that earlier count: with no drowsiness
    in the frame the level is WARNING exactly when [yawn_count] was
    already 3 or more before the frame, and NORMAL otherwise.  The level
    is always one of the three names, and [face_detected] tells whether
    the frame had a face. *)
Theorem status_reports :
  forall (F : Type) (num : arith F) (self d : DrowsinessDetector)
         (frame : list (list point)) (status : Status),
    process_frame num self frame = (d, Ok status) ->
    status_blink_count status = blink_count d
    /\ status_yawn_count status = yawn_count self
    /\ face_detected status = match frame with [] => false | _ => true end
    /\ (risk_level status = "NORMAL"%string \/ risk_level status = "WARNING"%string
        \/ risk_level status = "CRITICAL"%string)
    /\ (risk_level status = "CRITICAL"%string <->
        status_drowsy status = true /\ status_yawning status = true)
    /\ (status_drowsy status = false ->
        (risk_level status = "WARNING"%string <-> 3 <= yawn_count self)
        /\ (risk_level status = "NORMAL"%string <-> yawn_count self < 3)).
Proof.
  intros F num self d frame status Hrun.
  unfold process_frame in Hrun.
  destruct (for_rects num self
              (MkStatus false (blink_count self) (yawn_count self) false false "NORMAL")
              frame) as [d' [s |e]] eqn:Hfor; [| discriminate Hrun].
  inversion Hrun; subst d status. clear Hrun.
  destruct (for_rects_status num frame self d'
              (MkStatus false (blink_count self) (yawn_count self) false false "NORMAL")
              s eq_refl Hfor) as (Hb & Hy & Hfd).
  cbn [status_yawn_count face_detected orb] in Hy, Hfd.
  cbn [status_blink_count status_yawn_count face_detected risk_level
       status_drowsy status_yawning].
  split; [exact Hb |]. split; [exact Hy |]. split; [exact Hfd |].
  unfold risk_of. rewrite Hy.
  destruct (status_drowsy s), (status_yawning s), (Z.leb_spec 3 (yawn_count self));
    cbn [andb orb].
  all: repeat split; try (intros; discriminate); try (intros; lia);
    try (intros [? ?]; discriminate); auto.
Qed.

(** At the third yawn the count is 3 after the frame, yet the status of
    that frame still carries 2 and the level NORMAL. *)
Lemma status_reports_witness :
  let self := MkDetector 0 0 2 false false in
  yawn_count (fst (process_frame binary64 self [yawning_face])) = 3
  /\ exists status : Status,
      snd (process_frame binary64 self [yawning_face]) = Ok status
      /\ status_yawn_count status = 2
      /\ risk_level status = "NORMAL"%string.
Proof.
  intros self.
  assert (Hrun : process_frame binary64 self [yawning_face]
                 = (MkDetector 0 0 3 false true,
                    Ok (MkStatus true 0 2 false true "NORMAL")))
    by (vm_compute; reflexivity).
  pose proof (status_reports float binary64 self _ [yawning_face] _ Hrun)
    as (_ & Hy & _ & _ & _ & Hlate).
  rewrite Hrun. cbn [fst snd yawn_count]. split; [reflexivity |].
  eexists. split; [reflexivity |]. split; [exact Hy |].
  apply (Hlate eq_refl). cbn. lia.
Defined.

End DrowsinessProps.

(* ------------------------------------------------------------------ *)
(** ** The two aspect ratios                                           *)
(* ------------------------------------------------------------------ *)

Module GeometryProps.
Import Drowsiness.

(** *** Division by a zero width, in float64 *)

Section Binary64.
Local Open Scope float_scope.

Lemma is_zero_inv (d : float) :
  PrimFloat.is_zero d = true -> exists s, Prim2SF d = S754_zero s.
Proof.
  unfold PrimFloat.is_zero. rewrite FloatAxioms.eqb_spec.
  change (Prim2SF zero) with (S754_zero false).
  destruct (Prim2SF d) as [s | s | | s m e]; cbn.
  - intros _. exists s. reflexivity.
  - destruct s; discriminate.
  - discriminate.
  - destruct s; discriminate.
Qed.

Lemma is_nan_intro (r : float) : Prim2SF r = S754_nan -> PrimFloat.is_nan r = true.
Proof.
  intros H. unfold PrimFloat.is_nan. rewrite FloatAxioms.eqb_spec, H. reflexivity.
Qed.

Lemma is_infinity_intro (r : float) (s : bool) :
  Prim2SF r = S754_infinity s -> PrimFloat.is_infinity r = true.
Proof.
  intros H. unfold PrimFloat.is_infinity.
  rewrite FloatAxioms.eqb_spec, FloatAxioms.abs_spec, H. reflexivity.
Qed.

(** A quotient whose denominator is a finite non-zero constant times a
    zero is an infinity or a NaN. *)
Lemma quotient_by_zero_width (x c d : float) (sc : bool) (mc : positive) (ec : Z) :
  Prim2SF c = S754_finite sc mc ec ->
  PrimFloat.is_zero d = true ->
  PrimFloat.is_nan (x / (c * d)) || PrimFloat.is_infinity (x / (c * d)) = true.
Proof.
  intros Hc Hd. destruct (is_zero_inv d Hd) as [s Hs].
  assert (Hden : Prim2SF (c * d) = S754_zero (xorb sc s)).
  { rewrite FloatAxioms.mul_spec, Hc, Hs. reflexivity. }
  pose proof (FloatAxioms.div_spec x (c * d)) as Hq. rewrite Hden in Hq.
  destruct (Prim2SF x) as [sx | sx | | sx mx ex]; cbn in Hq.
  - rewrite (is_nan_intro _ Hq). reflexivity.
  - rewrite (is_infinity_intro _ _ Hq). apply orb_true_r.
  - rewrite (is_nan_intro _ Hq). reflexivity.
  - rewrite (is_infinity_intro _ _ Hq). apply orb_true_r.
Qed.

Lemma euclidean_same (p : point) : euclidean binary64 p p = 0.
Proof.
  unfold euclidean. rewrite !Z.sub_diag. vm_compute. reflexivity.
Qed.

End Binary64.

(** C6 (as the code has it). Neither ratio guards its denominator, and a
    float64 division never raises: for every 6-point eye contour and every
    20-point mouth contour the computation returns a value; when the
    horizontal distance of the denominator is zero (as it is when the two
    corner points coincide) that value is an infinity or a NaN. *)
Theorem zero_width_gives_inf_or_nan :
  (forall eye : list point,
      length eye = 6%nat ->
      exists (e0 e3 : point) (r : float),
        eye !! 0%nat = Some e0 /\ eye !! 3%nat = Some e3
        /\ eye_aspect_ratio binary64 eye = Ok r
        /\ (e0 = e3 -> PrimFloat.is_zero (euclidean binary64 e0 e3) = true)
        /\ (PrimFloat.is_zero (euclidean binary64 e0 e3) = true ->
            PrimFloat.is_nan r || PrimFloat.is_infinity r = true))
  /\ (forall mouth : list point,
         length mouth = 20%nat ->
         exists (m12 m16 : point) (r : float),
           mouth !! 12%nat = Some m12 /\ mouth !! 16%nat = Some m16
           /\ mouth_aspect_ratio binary64 mouth = Ok r
           /\ (m12 = m16 -> PrimFloat.is_zero (euclidean binary64 m12 m16) = true)
           /\ (PrimFloat.is_zero (euclidean binary64 m12 m16) = true ->
               PrimFloat.is_nan r || PrimFloat.is_infinity r = true)).
Proof.
  split.
  - intros eye Hlen.
    do 6 (destruct eye as [| ? eye]; [discriminate Hlen |]).
    destruct eye; [| discriminate Hlen].
    eexists _, _, _. repeat split.
    + intros ->. rewrite euclidean_same. reflexivity.
    + intros Hz. cbn [of_int fadd fmul fdiv binary64].
      eapply quotient_by_zero_width; [| exact Hz]. vm_compute. reflexivity.
  - intros mouth Hlen.
    do 20 (destruct mouth as [| ? mouth]; [discriminate Hlen |]).
    destruct mouth; [| discriminate Hlen].
    eexists _, _, _. repeat split.
    + intros ->. rewrite euclidean_same. reflexivity.
    + intros Hz. cbn [of_int fadd fmul fdiv binary64].
      eapply quotient_by_zero_width; [| exact Hz]. vm_compute. reflexivity.
Qed.

(** The eye clause of C6 at a contour whose corner points coincide. *)
Lemma zero_width_gives_inf_or_nan_witness :
  exists r : float,
    eye_aspect_ratio binary64 (DrowsinessProps.eye_of 1 0) = Ok r
    /\ PrimFloat.is_nan r || PrimFloat.is_infinity r = true.
Proof.
  destruct (proj1 zero_width_gives_inf_or_nan (DrowsinessProps.eye_of 1 0) eq_refl)
    as (e0 & e3 & r & H0 & H3 & Hr & Hsame & Hspecial).
  exists r. split; [exact Hr |].
  apply Hspecial, Hsame.
  cbn in H0, H3. congruence.
Defined.

(** C6 fails as stated: an eye contour of zero width with a positive
    opening has EAR [infinity], one with no opening has EAR [nan], and a
    mouth contour of zero width has MAR [infinity]; none raises. *)
Lemma zero_width_does_not_raise :
  euclidean binary64 (0, 0)%Z (0, 0)%Z = 0%float
  /\ eye_aspect_ratio binary64 [(0, 0); (2, 1); (4, 1); (0, 0); (4, 0); (2, 0)]%Z
     = Ok infinity
  /\ eye_aspect_ratio binary64 [(0, 0); (2, 0); (4, 0); (0, 0); (4, 0); (2, 0)]%Z
     = Ok nan
  /\ mouth_aspect_ratio binary64 (DrowsinessProps.mouth_of 7 0) = Ok infinity.
Proof.
  repeat split; vm_compute; reflexivity.
Qed.

(** *** The eye aspect ratio over the reals *)

Local Open Scope R_scope.









(* ------------------------------------------------------------------ *)
(** *** The mouth ratio, and moving or scaling the face                *)
(* ------------------------------------------------------------------ *)





Section Invariance.
Context {F : Type} (num : arith F).








End Invariance.






End GeometryProps.

(* ------------------------------------------------------------------ *)
(** ** Boolean comparisons of rationals                                *)
(* ------------------------------------------------------------------ *)

Lemma Qltb_true (x y : Q) : Qltb x y = true -> (x < y)%Q.
Proof.
  unfold Qltb. intros H. apply negb_true_iff in H.
  apply Qnot_le_lt. intros Hle. apply Qle_bool_iff in Hle. congruence.
Qed.

Lemma Qltb_false (x y : Q) : Qltb x y = false -> (y <= x)%Q.
Proof.
  unfold Qltb. intros H. apply negb_false_iff in H. now apply Qle_bool_iff.
Qed.

Lemma Qltb_intro (x y : Q) : (x < y)%Q -> Qltb x y = true.
Proof.
  intros H. destruct (Qltb x y) eqn:E; [reflexivity |].
  apply Qltb_false in E. lra.
Qed.

Lemma Qltb_elim (x y : Q) : (y <= x)%Q -> Qltb x y = false.
Proof.
  intros H. destruct (Qltb x y) eqn:E; [| reflexivity].
  apply Qltb_true in E. lra.
Qed.

(* ------------------------------------------------------------------ *)
(** ** Fusion of the two classifiers                                   *)
(* ------------------------------------------------------------------ *)

Module HeartRateModelProps.
Import HeartRateModel.

Local Open Scope Q_scope.

(** [argmax_from] and [max_from] walk the row together: either the best
    so far survives, or the maximum sits at the index returned, strictly
    above the best so far and above every entry before it. *)
Lemma argmax_from_spec (row : list Q) : forall (best : Q) (besti i : nat),
  let k := argmax_from best besti i row in
  let m := max_from best row in
  best <= m
  /\ Forall (fun x => x <= m) row
  /\ ((k = besti /\ m = best)
      \/ (exists j : nat, k = (i + j)%nat /\ row !! j = Some m /\ best < m
                          /\ Forall (fun x => x < m) (take j row))).
Proof.
  induction row as [| y rest IH]; intros best besti i; cbn [argmax_from max_from].
  - split; [lra |]. split; [constructor |]. left. auto.
  - destruct (Qltb best y) eqn:Hlt.
    + apply Qltb_true in Hlt.
      destruct (IH y i (S i)) as (Hle & Hall & Hcase).
      split; [lra |]. split; [constructor; assumption |]. right.
      destruct Hcase as [[Hk Hm] | (j & Hk & Hj & Hym & Hbefore)].
      * exists 0%nat. rewrite Hk, Hm. repeat split.
        -- lia.
        -- assumption.
        -- constructor.
      * exists (S j). repeat split.
        -- lia.
        -- exact Hj.
        -- lra.
        -- cbn [take]. constructor; assumption.
    + apply Qltb_false in Hlt.
      destruct (IH best besti (S i)) as (Hle & Hall & Hcase).
      split; [assumption |]. split; [constructor; [lra | assumption] |].
      destruct Hcase as [[Hk Hm] | (j & Hk & Hj & Hbm & Hbefore)].
      * left. auto.
      * right. exists (S j). repeat split.
        -- lia.
        -- exact Hj.
        -- assumption.
        -- cbn [take]. constructor; [lra | assumption].
Qed.

(** On a non-empty row, [np.argmax] and [max] agree: the index returned
    holds the value returned, no entry exceeds it, and every entry before
    it is strictly smaller. *)
Lemma argmax_spec (row : list Q) :
  row <> [] ->
  exists (k : nat) (m : Q),
    argmax row = Ok k /\ py_max row = Ok m
    /\ row !! k = Some m
    /\ Forall (fun x => x <= m) row
    /\ Forall (fun x => x < m) (take k row).
Proof.
  destruct row as [| x rest]; [congruence |]. intros _.
  exists (argmax_from x 0 1 rest), (max_from x rest).
  destruct (argmax_from_spec rest x 0%nat 1%nat) as (Hle & Hall & Hcase).
  repeat split.
  - destruct Hcase as [[-> ->] | (j & -> & Hj & _ & _)]; [reflexivity | exact Hj].
  - constructor; assumption.
  - destruct Hcase as [[-> _] | (j & -> & _ & Hlt & Hbefore)].
    + constructor.
    + cbn [Nat.add take]. constructor; assumption.
Qed.

(** [round_half_even] is within one half of its argument. *)
Lemma round_half_even_near (x : Q) :
  - (1 # 2) <= inject_Z (round_half_even x) - x <= 1 # 2.
Proof.
  unfold round_half_even.
  pose proof (Qfloor_le x) as Hlo. pose proof (Qlt_floor x) as Hhi.
  rewrite inject_Z_plus in Hhi. change (inject_Z 1) with 1 in Hhi.
  destruct (Qltb (x - inject_Z (Qfloor x)) (1 # 2)) eqn:H1.
  - apply Qltb_true in H1. lra.
  - apply Qltb_false in H1.
    destruct (Qltb (1 # 2) (x - inject_Z (Qfloor x))) eqn:H2.
    + rewrite inject_Z_plus. change (inject_Z 1) with 1. lra.
    + apply Qltb_false in H2.
      destruct (Z.even (Qfloor x)).
      * lra.
      * rewrite inject_Z_plus. change (inject_Z 1) with 1. lra.
Qed.

(** [py_round x 1] is a whole number of tenths, within 0.05 of [x]. *)
Lemma py_round_one_decimal (x : Q) :
  (exists n : Z, py_round x 1 == inject_Z n / 10)
  /\ - (1 # 20) <= py_round x 1 - x <= 1 # 20.
Proof.
  unfold py_round. change (inject_Z (10 ^ Z.of_nat 1)) with 10.
  split.
  - exists (round_half_even (x * 10)). apply Qred_correct.
  - rewrite Qred_correct.
    pose proof (round_half_even_near (x * 10)) as H.
    set (n := inject_Z (round_half_even (x * 10))) in *.
    assert (Hn : n / 10 - x == (n - x * 10) / 10) by field.
    rewrite Hn. split.
    + apply Qle_shift_div_l; lra.
    + apply Qle_shift_div_r; lra.
Qed.



(* ------------------------------------------------------------------ *)
(** *** Batches, agreement of the classifiers, range of the confidence  *)
(* ------------------------------------------------------------------ *)



Lemma add_rows_mismatch (a : list Q) : forall b : list Q,
  length a <> length b -> add_rows a b = Raise ValueError.
Proof.
  induction a as [| x a IH]; intros [| y b] Hlen; cbn [add_rows]; try reflexivity.
  - contradiction.
  - rewrite IH by (cbn in Hlen; congruence). reflexivity.
Qed.









(** What [predict] returns on three-class rows, by the maximum [m] of
    the combined row. *)
Lemma predict_returns (self : DriverHealthModel)
    (heart_rate hrv spo2 skin_temp activity_level time_of_day_hr : Q)
    (a0 a1 a2 b0 b1 b2 : Q) :
  let features_scaled :=
    scaler_transform self
      [[heart_rate; hrv; spo2; skin_temp; activity_level; time_of_day_hr]] in
  let combined :=
    [0.45 * a0 + 0.55 * b0; 0.45 * a1 + 0.55 * b1; 0.45 * a2 + 0.55 * b2] in
  is_trained self = true ->
  rf_predict_proba self features_scaled = [[a0; a1; a2]] ->
  gb_predict_proba self features_scaled = [[b0; b1; b2]] ->
  exists (k : nat) (lvl : string) (m : Q),
    predict self heart_rate hrv spo2 skin_temp activity_level time_of_day_hr
    = Ok (MkPrediction k lvl (py_round (m * 100) 1) heart_rate hrv spo2 skin_temp)
    /\ combined !! k = Some m
    /\ Forall (fun x => x <= m) combined.
Proof.
  intros features_scaled combined Htrained Hrf Hgb.
  assert (Hc : combine [[a0; a1; a2]] [[b0; b1; b2]] 0.45 0.55 = Ok [combined])
    by reflexivity.
  assert (Hlen : length combined = 3%nat) by reflexivity.
  clearbody combined.
  assert (Hne : combined <> []) by (destruct combined; [discriminate Hlen | discriminate]).
  destruct (argmax_spec combined Hne) as (k & m & Hk & Hm & Hkm & Hall & _).
  assert (Hlvl : exists lvl, RISK_LABELS !! k = Some lvl).
  { pose proof (lookup_lt_Some _ _ _ Hkm) as Hlt. rewrite Hlen in Hlt.
    destruct k as [| [| [| k]]]; [eexists; reflexivity .. | lia]. }
  destruct Hlvl as [lvl Hlvl].
  exists k, lvl, m. split; [| split; assumption].
  unfold predict. rewrite Htrained. cbn [negb]. fold features_scaled.
  rewrite Hrf, Hgb. unfold _fuse_predictions. rewrite Hc.
  cbn [rbind argmax_axis1]. rewrite Hk. cbn [rbind item lookup list_lookup].
  rewrite Hm. cbn [rbind]. rewrite Hlvl. reflexivity.
Qed.

(** X13. For probability vectors (non-negative entries that sum to 1)
    over the three classes, the confidence [predict] reports lies between
    33.3 and 100. *)
Theorem confidence_range :
  forall (self : DriverHealthModel)
         (heart_rate hrv spo2 skin_temp activity_level time_of_day_hr : Q)
         (a0 a1 a2 b0 b1 b2 : Q),
    let features_scaled :=
      scaler_transform self
        [[heart_rate; hrv; spo2; skin_temp; activity_level; time_of_day_hr]] in
    is_trained self = true ->
    rf_predict_proba self features_scaled = [[a0; a1; a2]] ->
    gb_predict_proba self features_scaled = [[b0; b1; b2]] ->
    0 <= a0 -> 0 <= a1 -> 0 <= a2 -> a0 + a1 + a2 == 1 ->
    0 <= b0 -> 0 <= b1 -> 0 <= b2 -> b0 + b1 + b2 == 1 ->
    exists p : Prediction,
      predict self heart_rate hrv spo2 skin_temp activity_level time_of_day_hr = Ok p
      /\ 33.3 <= confidence p <= 100.
Proof.
  intros self heart_rate hrv spo2 skin_temp activity_level time_of_day_hr
         a0 a1 a2 b0 b1 b2 features_scaled Htrained Hrf Hgb
         Ha0 Ha1 Ha2 Hsa Hb0 Hb1 Hb2 Hsb.
  destruct (predict_returns self heart_rate hrv spo2 skin_temp activity_level
              time_of_day_hr a0 a1 a2 b0 b1 b2 Htrained Hrf Hgb)
    as (k & lvl & m & Hp & Hkm & Hall).
  eexists. split; [exact Hp |]. cbn [confidence].
  assert (Hlo : 1 # 3 <= m).
  { inversion Hall as [| ? ? H0 Hall1]; subst.
    inversion Hall1 as [| ? ? H1 Hall2]; subst.
    inversion Hall2 as [| ? ? H2 _]; subst. lra. }
  assert (Hhi : m <= 1).
  { destruct k as [| [| [| k]]]; cbn in Hkm; [| | | discriminate Hkm];
      inversion Hkm; subst m; lra. }
  destruct (py_round_one_decimal (m * 100)) as [[n Hn] Hnear].
  rewrite Hn in Hnear |- *.
  unfold Qdiv in Hnear |- *. change (/ 10) with (1 # 10) in Hnear |- *.
  assert (H332 : inject_Z 332 < inject_Z n).
  { change (inject_Z 332) with 332. lra. }
  assert (H1001 : inject_Z n < inject_Z 1001).
  { change (inject_Z 1001) with 1001. lra. }
  rewrite <- Zlt_Qlt in H332, H1001.
  assert (Hn1 : inject_Z 333 <= inject_Z n) by (rewrite <- Zle_Qle; lia).
  assert (Hn2 : inject_Z n <= inject_Z 1000) by (rewrite <- Zle_Qle; lia).
  change (inject_Z 333) with 333 in Hn1. change (inject_Z 1000) with 1000 in Hn2.
  lra.
Qed.

Lemma confidence_range_witness :
  exists p : Prediction,
    predict (MkModel true (fun x => x)
                     (fun _ => [[0.3; 0.4; 0.3]]) (fun _ => [[0.4; 0.3; 0.3]]))
            70 50 98 34 0 12 = Ok p
    /\ 33.3 <= confidence p <= 100.
Proof.
  refine (confidence_range
            (MkModel true (fun x => x)
                     (fun _ => [[0.3; 0.4; 0.3]]) (fun _ => [[0.4; 0.3; 0.3]]))
            70 50 98 34 0 12 0.3 0.4 0.3 0.4 0.3 0.3
            eq_refl eq_refl eq_refl _ _ _ _ _ _ _ _);
    vm_compute; congruence.
Defined.

(* ------------------------------------------------------------------ *)
(** *** Labels and rounding in the generated dataset                    *)
(* ------------------------------------------------------------------ *)

(** [x] is more than 0.05 away from the threshold [t]. *)
Definition clear_of (x t : Q) : Prop := 1 # 20 < x - t \/ 1 # 20 < t - x.

Lemma round_keeps_above (x t : Q) :
  clear_of x t -> Qltb t (py_round x 1) = Qltb t x.
Proof.
  intros Hclear. destruct (py_round_one_decimal x) as [_ Hnear].
  destruct Hclear as [H | H].
  - rewrite !Qltb_intro by lra. reflexivity.
  - rewrite !Qltb_elim by lra. reflexivity.
Qed.

Lemma round_keeps_below (x t : Q) :
  clear_of x t -> Qltb (py_round x 1) t = Qltb x t.
Proof.
  intros Hclear. destruct (py_round_one_decimal x) as [_ Hnear].
  destruct Hclear as [H | H].
  - rewrite !Qltb_elim by lra. reflexivity.
  - rewrite !Qltb_intro by lra. reflexivity.
Qed.

(** X21. The label of a dataset row is computed from the values as
    drawn, the row stores them rounded to one decimal: the rule applied to
    the stored values gives the stored label whenever each vital is more
    than 0.05 away from each of its thresholds. *)
Theorem labels_stable_under_rounding :
  forall (activity : Z) (hr hrv spo2 skin_temp : Q) (time_of_day : Z),
    clear_of hr 140 -> clear_of hr 45 -> clear_of hr 110 -> clear_of hr 55 ->
    clear_of spo2 94 -> clear_of spo2 96 ->
    clear_of hrv 15 -> clear_of hrv 25 ->
    clear_of skin_temp 38 ->
    let row := make_row activity hr hrv spo2 skin_temp time_of_day in
    risk_label_of (row_heart_rate row) (row_hrv row) (row_spo2 row)
                  (row_skin_temp row) (row_time_of_day_hr row)
    = row_risk_label row.
Proof.
  intros activity hr hrv spo2 skin_temp time_of_day
         H140 H45 H110 H55 H94 H96 H15 H25 H38 row.
  subst row. unfold make_row, risk_label_of.
  cbn [row_heart_rate row_hrv row_spo2 row_skin_temp row_time_of_day_hr row_risk_label].
  rewrite (round_keeps_above hr 140 H140), (round_keeps_below hr 45 H45),
    (round_keeps_below spo2 94 H94), (round_keeps_below hrv 15 H15),
    (round_keeps_above skin_temp 38 H38), (round_keeps_above hr 110 H110),
    (round_keeps_below hr 55 H55), (round_keeps_below spo2 96 H96),
    (round_keeps_below hrv 25 H25).
  reflexivity.
Qed.

(** A calm sample keeps its label; closer to a threshold the two can
    differ: a heart rate of 140.04 is labelled 2 and stored as 140.0,
    which the rule would label 1. *)
Lemma labels_stable_under_rounding_witness :
  risk_label_of (py_round 72.34 1) (py_round 51.27 1) (py_round 97.81 1)
                (py_round 34.12 1) 14 = 0%nat
  /\ row_risk_label (make_row 0 140.04 50 98 34 12) = 2%nat
  /\ row_heart_rate (make_row 0 140.04 50 98 34 12) == 140
  /\ risk_label_of (py_round 140.04 1) (py_round 50 1) (py_round 98 1)
                   (py_round 34 1) 12 = 1%nat.
Proof.
  split; [| repeat split; vm_compute; reflexivity].
  refine (eq_trans (labels_stable_under_rounding 1 72.34 51.27 97.81 34.12 14
                      _ _ _ _ _ _ _ _ _) _);
    try (unfold clear_of; first [left; vm_compute; reflexivity
                                | right; vm_compute; reflexivity]).
  vm_compute. reflexivity.
Defined.

End HeartRateModelProps.

(* ------------------------------------------------------------------ *)
(** ** Cooldown of the alert dispatcher                                *)
(* ------------------------------------------------------------------ *)

Module AlertProps.
Import Alert.

Local Open Scope Q_scope.

(** The cooldown [trigger_alert] reads for a level. *)
Definition cooldown (level : string) : Q := dict_get COOLDOWN_SECONDS level 5.

(** The dictionary a suppressed call returns. *)
Definition suppressed_dict (level : string) : alert_dict :=
  MkAlert true level None None None None None.

Definition known (level : string) : Prop :=
  level = "NORMAL"%string \/ level = "WARNING"%string \/ level = "CRITICAL"%string.

Lemma cooldown_cases (level : string) :
  (level = "NORMAL"%string /\ cooldown level = 5)
  \/ (level = "WARNING"%string /\ cooldown level = 10)
  \/ (level = "CRITICAL"%string /\ cooldown level = 3)
  \/ (~ known level /\ cooldown level = 5).
Proof.
  unfold cooldown, dict_get, COOLDOWN_SECONDS, known.
  destruct (decide (level = "NORMAL"%string)) as [-> | H1]; [left; split; reflexivity |].
  destruct (decide (level = "WARNING"%string)) as [-> | H2];
    [right; left; split; reflexivity |].
  destruct (decide (level = "CRITICAL"%string)) as [-> | H3];
    [right; right; left; split; reflexivity |].
  right; right; right. split; [tauto |].
  rewrite !lookup_insert_ne by congruence. rewrite lookup_empty. reflexivity.
Qed.

Lemma cooldown_pos (level : string) : 0 < cooldown level.
Proof.
  destruct (cooldown_cases level) as [[_ ->] | [[_ ->] | [[_ ->] | [_ ->]]]];
    reflexivity.
Qed.

(** A call inside the cooldown: suppressed, nothing written, nothing done. *)
Lemma trigger_alert_suppressed (last : gmap string Q) (now : Q) (stamp level source : string)
    (details : option (list (string * string))) (t : Q) :
  last !! level = Some t ->
  now - t < cooldown level ->
  trigger_alert last now stamp level source details
  = (last, suppressed_dict level, []).
Proof.
  intros Hl Hlt. unfold trigger_alert. rewrite Hl.
  fold (cooldown level). rewrite (Qltb_intro _ _ Hlt). reflexivity.
Qed.

(** A call outside the cooldown (or the first of its level): the alert
    is built, the time written, the lines printed, and the beep thread
    started for WARNING and CRITICAL only. *)
Lemma trigger_alert_fired (last : gmap string Q) (now : Q) (stamp level source : string)
    (details : option (list (string * string))) :
  (forall t : Q, last !! level = Some t -> cooldown level <= now - t) ->
  exists effects : list effect,
    trigger_alert last now stamp level source details
    = (<[level := now]> last,
       MkAlert false level (Some stamp) (Some source)
               (Some (dict_get messages level "Unknown risk level"))
               (Some (dict_get actions level ""))
               (Some (match details with Some d => d | None => [] end)),
       effects)
    /\ (forall l : string,
           StartBeepThread l ∈ effects ->
           l = level /\ (level = "WARNING"%string \/ level = "CRITICAL"%string)).
Proof.
  intros Hout. unfold trigger_alert. fold (cooldown level).
  assert (Hcool : match last !! level with
                  | Some t => Qltb (now - t) (cooldown level)
                  | None => false
                  end = false).
  { destruct (last !! level) as [t |] eqn:Hl; [| reflexivity].
    apply Qltb_elim. apply Hout. reflexivity. }
  rewrite Hcool. eexists. split; [reflexivity |].
  intros l Hin.
  rewrite !elem_of_app in Hin. destruct Hin as [[Hin | Hin] | Hin].
  - repeat (apply elem_of_cons in Hin; destruct Hin as [Hin | Hin]; [discriminate Hin |]).
    apply elem_of_nil in Hin. contradiction.
  - destruct Hin as [Hin | Hin].
    + apply list_elem_of_fmap in Hin. destruct Hin as (kv & Heq & _). discriminate Heq.
    + apply elem_of_cons in Hin. destruct Hin as [Hin | Hin]; [discriminate Hin |].
      apply elem_of_nil in Hin. contradiction.
  - destruct (bool_decide (level = "WARNING"%string)) eqn:Hw;
      destruct (bool_decide (level = "CRITICAL"%string)) eqn:Hc; cbn [orb] in Hin.
    all: try (apply elem_of_nil in Hin; contradiction).
    all: apply elem_of_cons in Hin; destruct Hin as [Hin | Hin];
      [| apply elem_of_nil in Hin; contradiction].
    all: inversion Hin; subst l; split; [reflexivity |].
    all: try (apply bool_decide_eq_true in Hw; tauto).
    apply bool_decide_eq_true in Hc. tauto.
Qed.

(** Every call is one or the other. *)
Lemma trigger_alert_cases (last : gmap string Q) (now : Q) (level : string) :
  (exists t : Q, last !! level = Some t /\ now - t < cooldown level)
  \/ (forall t : Q, last !! level = Some t -> cooldown level <= now - t).
Proof.
  destruct (last !! level) as [t |] eqn:Hl.
  - destruct (Qlt_le_dec (now - t) (cooldown level)) as [Hlt | Hle].
    + left. exists t. auto.
    + right. intros t' Ht'. inversion Ht'. subst. assumption.
  - right. intros t' Ht'. discriminate Ht'.
Qed.

(** The three components of what [trigger_alert] returns, for a call. *)
Definition dict_after (last : gmap string Q) (c : call) : gmap string Q :=
  fst (fst (trigger_alert last (call_now c) (call_stamp c) (call_level c)
                          (call_source c) (call_details c))).

Definition returned (last : gmap string Q) (c : call) : alert_dict :=
  snd (fst (trigger_alert last (call_now c) (call_stamp c) (call_level c)
                          (call_source c) (call_details c))).

Lemma trigger_alerts_cons (last : gmap string Q) (c : call) (rest : list call) :
  trigger_alerts last (c :: rest)
  = (fst (trigger_alerts (dict_after last c) rest),
     returned last c :: snd (trigger_alerts (dict_after last c) rest)).
Proof.
  unfold dict_after, returned. cbn [trigger_alerts].
  destruct (trigger_alert last (call_now c) (call_stamp c) (call_level c)
                          (call_source c) (call_details c)) as [[l a] e].
  cbn [fst snd]. destruct (trigger_alerts l rest). reflexivity.
Qed.

(** A call that is not suppressed writes its time under its level. *)
Lemma fired_writes (last : gmap string Q) (c : call) :
  suppressed (returned last c) = false ->
  dict_after last c = <[call_level c := call_now c]> last
  /\ (forall t : Q, last !! call_level c = Some t ->
                    cooldown (call_level c) <= call_now c - t).
Proof.
  unfold returned, dict_after. intros Hs.
  destruct (trigger_alert_cases last (call_now c) (call_level c))
    as [(t & Hl & Hlt) | Hout].
  - rewrite (trigger_alert_suppressed _ _ (call_stamp c) _ (call_source c)
               (call_details c) t Hl Hlt) in Hs.
    discriminate Hs.
  - destruct (trigger_alert_fired last (call_now c) (call_stamp c) (call_level c)
                (call_source c) (call_details c) Hout) as (eff & -> & _).
    split; [reflexivity | exact Hout].
Qed.

(** One call moves the time stored under a level forward, if at all. *)
Lemma step_level (last : gmap string Q) (c : call) (l : string) (t : Q) :
  last !! l = Some t ->
  exists t' : Q,
    dict_after last c !! l = Some t' /\ t <= t'
    /\ (call_level c = l -> suppressed (returned last c) = false ->
        cooldown l <= call_now c - t).
Proof.
  intros Hl.
  destruct (trigger_alert_cases last (call_now c) (call_level c))
    as [(t0 & Hl0 & Hlt) | Hout].
  - exists t. unfold dict_after, returned.
    rewrite (trigger_alert_suppressed _ _ (call_stamp c) _ (call_source c)
               (call_details c) t0 Hl0 Hlt).
    cbn [fst snd suppressed suppressed_dict].
    split; [exact Hl |]. split; [lra |]. intros _ H. discriminate H.
  - destruct (trigger_alert_fired last (call_now c) (call_stamp c) (call_level c)
                (call_source c) (call_details c) Hout) as (eff & Heq & _).
    unfold dict_after, returned. rewrite Heq. cbn [fst snd].
    destruct (decide (call_level c = l)) as [El | Nl].
    + exists (call_now c). rewrite El. rewrite lookup_insert_eq.
      rewrite El in Hout. specialize (Hout t Hl).
      pose proof (cooldown_pos l).
      split; [reflexivity |]. split; [lra |]. intros _ _. exact Hout.
    + exists t. rewrite lookup_insert_ne by exact Nl.
      split; [exact Hl |]. split; [lra |]. intros E. contradiction.
Qed.

(** After an alert of a level at [t0], every later alert of that level
    that is not suppressed comes at least the cooldown after [t0]. *)
Lemma separated_from (calls : list call) :
  forall (last : gmap string Q) (l : string) (t t0 : Q),
    last !! l = Some t -> t0 <= t ->
    forall (j : nat) (cj : call) (aj : alert_dict),
      calls !! j = Some cj ->
      snd (trigger_alerts last calls) !! j = Some aj ->
      call_level cj = l -> suppressed aj = false ->
      cooldown l <= call_now cj - t0.
Proof.
  induction calls as [| c rest IH]; intros last l t t0 Hl Ht0 j cj aj Hcj Haj Hlev Hs.
  - rewrite lookup_nil in Hcj. discriminate Hcj.
  - rewrite trigger_alerts_cons in Haj. cbn [snd] in Haj.
    destruct (step_level last c l t Hl) as (t' & Hl' & Htt' & Hfire).
    destruct j as [| j].
    + cbn in Hcj, Haj. inversion Hcj; subst cj. inversion Haj; subst aj.
      specialize (Hfire Hlev Hs). lra.
    + cbn in Hcj, Haj.
      apply (IH (dict_after last c) l t' t0 Hl' ltac:(lra) j cj aj Hcj Haj Hlev Hs).
Qed.

Lemma alerts_separated (calls : list call) :
  forall (last : gmap string Q) (i j : nat) (ci cj : call) (ai aj : alert_dict),
    (i < j)%nat ->
    calls !! i = Some ci -> calls !! j = Some cj ->
    snd (trigger_alerts last calls) !! i = Some ai ->
    snd (trigger_alerts last calls) !! j = Some aj ->
    call_level ci = call_level cj ->
    suppressed ai = false -> suppressed aj = false ->
    cooldown (call_level ci) <= call_now cj - call_now ci.
Proof.
  induction calls as [| c rest IH];
    intros last i j ci cj ai aj Hij Hci Hcj Hai Haj Hlev Hsi Hsj.
  - rewrite lookup_nil in Hci. discriminate Hci.
  - rewrite trigger_alerts_cons in Hai, Haj. cbn [snd] in Hai, Haj.
    destruct j as [| j]; [lia |]. cbn in Hcj, Haj.
    destruct i as [| i].
    + cbn in Hci, Hai. inversion Hci; subst ci. inversion Hai; subst ai.
      destruct (fired_writes last c Hsi) as [Hd _].
      assert (Hl : dict_after last c !! call_level c = Some (call_now c)).
      { rewrite Hd. apply lookup_insert_eq. }
      apply (separated_from rest (dict_after last c) (call_level c) (call_now c)
               (call_now c) Hl ltac:(lra) j cj aj Hcj Haj (eq_sym Hlev) Hsj).
    + cbn in Hci, Hai.
      apply (IH (dict_after last c) i j ci cj ai aj ltac:(lia) Hci Hcj Hai Haj Hlev Hsi Hsj).
Qed.

(** A call for one level leaves the time stored under another alone. *)
Lemma other_level_untouched (last : gmap string Q) (c : call) (l : string) :
  call_level c <> l -> dict_after last c !! l = last !! l.
Proof.
  intros Hne. unfold dict_after.
  destruct (trigger_alert_cases last (call_now c) (call_level c))
    as [(t0 & Hl0 & Hlt) | Hout].
  - rewrite (trigger_alert_suppressed _ _ (call_stamp c) _ (call_source c)
               (call_details c) t0 Hl0 Hlt).
    reflexivity.
  - destruct (trigger_alert_fired last (call_now c) (call_stamp c) (call_level c)
                (call_source c) (call_details c) Hout) as (eff & -> & _).
    cbn [fst]. apply lookup_insert_ne. exact Hne.
Qed.

(** C4. The cooldowns are 5 s (NORMAL), 10 s (WARNING) and 3 s
    (CRITICAL).  A call for a level at [t1] that is not suppressed stores
    [t1] under the level, and calls for other levels leave it there.  With
    [t1] stored, a call for that level at [t2] with [t2 - t1] below the
    cooldown returns the suppressed dictionary, leaves the stored times as
    they are and has no effect, while one with [t2 - t1] at or above the
    cooldown is not suppressed and stores [t2].  Hence in any sequence of
    calls two alerts of one level that are not suppressed are at least that
    level's cooldown apart.  In particular CRITICAL at 0, 2 and 3.1: the
    second call is suppressed and leaves the stored time at 0, the third is
    not. *)
Theorem cooldown_suppression :
  (cooldown "NORMAL" = 5 /\ cooldown "WARNING" = 10 /\ cooldown "CRITICAL" = 3)
  /\ (forall (last : gmap string Q) (c : call),
         suppressed (returned last c) = false ->
         dict_after last c !! call_level c = Some (call_now c))
  /\ (forall (last : gmap string Q) (c : call) (level : string),
         call_level c <> level -> dict_after last c !! level = last !! level)
  /\ (forall (last : gmap string Q) (level : string) (t1 t2 : Q)
             (stamp source : string) (details : option (list (string * string))),
         let r := trigger_alert last t2 stamp level source details in
         last !! level = Some t1 ->
         (t2 - t1 < cooldown level -> r = (last, suppressed_dict level, []))
         /\ (cooldown level <= t2 - t1 ->
             suppressed (snd (fst r)) = false
             /\ fst (fst r) = <[level := t2]> last
             /\ fst (fst r) !! level = Some t2))
  /\ (forall (last : gmap string Q) (calls : list call) (i j : nat)
             (ci cj : call) (ai aj : alert_dict),
         (i < j)%nat ->
         calls !! i = Some ci -> calls !! j = Some cj ->
         snd (trigger_alerts last calls) !! i = Some ai ->
         snd (trigger_alerts last calls) !! j = Some aj ->
         call_level ci = call_level cj ->
         suppressed ai = false -> suppressed aj = false ->
         cooldown (call_level ci) <= call_now cj - call_now ci)
  /\ (let c0 := MkCall 0 "t0" "CRITICAL" "TEST" None in
      let c1 := MkCall 2 "t1" "CRITICAL" "TEST" None in
      let c2 := MkCall 3.1 "t2" "CRITICAL" "TEST" None in
      map suppressed (snd (trigger_alerts ∅ [c0; c1; c2])) = [false; true; false]
      /\ fst (trigger_alerts ∅ [c0]) !! "CRITICAL"%string = Some 0
      /\ trigger_alert (fst (trigger_alerts ∅ [c0])) 2 "t1" "CRITICAL" "TEST" None
         = (fst (trigger_alerts ∅ [c0]), suppressed_dict "CRITICAL", [])
      /\ fst (trigger_alerts ∅ [c0; c1]) !! "CRITICAL"%string = Some 0
      /\ fst (trigger_alerts ∅ [c0; c1; c2]) !! "CRITICAL"%string = Some 3.1).
Proof.
  split; [| split; [| split; [| split; [| split]]]].
  - repeat split; reflexivity.
  - intros last c Hs. destruct (fired_writes last c Hs) as [-> _].
    apply lookup_insert_eq.
  - intros last c level. apply other_level_untouched.
  - intros last level t1 t2 stamp source details r Hl. split.
    + intros Hlt. apply (trigger_alert_suppressed _ _ _ _ _ _ t1 Hl Hlt).
    + intros Hle.
      assert (Hout : forall t : Q, last !! level = Some t -> cooldown level <= t2 - t).
      { intros t Ht. rewrite Hl in Ht. inversion Ht. subst t. exact Hle. }
      destruct (trigger_alert_fired last t2 stamp level source details Hout)
        as (eff & Heq & _).
      subst r. rewrite Heq. cbn [fst snd suppressed].
      split; [reflexivity |]. split; [reflexivity |]. apply lookup_insert_eq.
  - intros last calls. apply alerts_separated.
  - cbv zeta. repeat split; vm_compute; reflexivity.
Qed.

(** The cooldown clause of C4 at CRITICAL, fired at 0: a call at 2 is
    suppressed, a call at 3.1 is not. *)
Lemma cooldown_suppression_witness :
  let last := fst (fst (trigger_alert ∅ 0 "t0" "CRITICAL" "TEST" None)) in
  trigger_alert last 2 "t1" "CRITICAL" "TEST" None
  = (last, suppressed_dict "CRITICAL", [])
  /\ suppressed (snd (fst (trigger_alert last 3.1 "t2" "CRITICAL" "TEST" None))) = false.
Proof.
  intros last.
  assert (Hl : last !! "CRITICAL"%string = Some 0) by (vm_compute; reflexivity).
  split.
  - refine (proj1 (proj1 (proj2 (proj2 (proj2 cooldown_suppression)))
                     last "CRITICAL"%string 0 2 "t1"%string "TEST"%string None Hl) _).
    vm_compute. reflexivity.
  - refine (proj1 (proj2 (proj1 (proj2 (proj2 (proj2 cooldown_suppression)))
                            last "CRITICAL"%string 0 3.1 "t2"%string "TEST"%string None Hl)
                     _)).
    vm_compute. discriminate.
Defined.

(** C10. For a level outside NORMAL, WARNING and CRITICAL,
    [trigger_alert] (a function without a failing branch) applies a
    cooldown of 5 seconds; a call that is not suppressed stores its time
    under that level and returns the alert with message "Unknown risk
    level", empty action, [suppressed = false], and starts no beep thread;
    a suppressed call has a stored time less than 5 seconds back, and
    writes and does nothing.  The first call of the level is not
    suppressed. *)
Theorem unknown_level_alert :
  forall (last : gmap string Q) (now : Q) (stamp level source : string)
         (details : option (list (string * string))),
    level <> "NORMAL"%string -> level <> "WARNING"%string ->
    level <> "CRITICAL"%string ->
    let r := trigger_alert last now stamp level source details in
    cooldown level = 5
    /\ (suppressed (snd (fst r)) = false ->
        fst (fst r) = <[level := now]> last
        /\ fst (fst r) !! level = Some now
        /\ snd (fst r)
           = MkAlert false level (Some stamp) (Some source)
                     (Some "Unknown risk level"%string) (Some ""%string)
                     (Some (match details with Some d => d | None => [] end))
        /\ (forall l : string, StartBeepThread l ∉ snd r))
    /\ (suppressed (snd (fst r)) = true ->
        (exists t : Q, last !! level = Some t /\ now - t < 5)
        /\ r = (last, suppressed_dict level, []))
    /\ (last !! level = None -> suppressed (snd (fst r)) = false)
    /\ (forall t : Q, last !! level = Some t -> 5 <= now - t ->
                      suppressed (snd (fst r)) = false).
Proof.
  intros last now stamp level source details H1 H2 H3 r.
  assert (Hcd : cooldown level = 5).
  { destruct (cooldown_cases level) as [[E _] | [[E _] | [[E _] | [_ E]]]];
      [contradiction .. | exact E]. }
  assert (Hmsg : dict_get messages level "Unknown risk level" = "Unknown risk level"%string).
  { unfold dict_get, messages. rewrite !lookup_insert_ne by congruence.
    rewrite lookup_empty. reflexivity. }
  assert (Hact : dict_get actions level "" = ""%string).
  { unfold dict_get, actions. rewrite !lookup_insert_ne by congruence.
    rewrite lookup_empty. reflexivity. }
  split; [exact Hcd |].
  destruct (trigger_alert_cases last now level) as [(t & Hl & Hlt) | Hout].
  - pose proof (trigger_alert_suppressed last now stamp level source details t Hl Hlt) as Heq.
    fold r in Heq. rewrite Heq. cbn [fst snd suppressed suppressed_dict].
    split; [intros H; discriminate H |].
    split; [intros _; split; [exists t; rewrite <- Hcd; auto | reflexivity] |].
    split; [intros Hn; rewrite Hn in Hl; discriminate Hl |].
    intros t' Ht' Hle. rewrite Hl in Ht'. inversion Ht'. subst t'. rewrite Hcd in Hlt. lra.
  - destruct (trigger_alert_fired last now stamp level source details Hout)
      as (eff & Heq & Hbeep).
    fold r in Heq. rewrite Heq. cbn [fst snd suppressed].
    rewrite Hmsg, Hact.
    split.
    + intros _. split; [reflexivity |]. split; [apply lookup_insert_eq |].
      split; [reflexivity |].
      intros l Hin. destruct (Hbeep l Hin) as [_ [E | E]]; contradiction.
    + split; [intros H; discriminate H |]. split; reflexivity.
Qed.

Lemma unknown_level_alert_witness :
  cooldown "SEVERE" = 5
  /\ message (snd (fst (trigger_alert ∅ 7 "t" "SEVERE" "FUSION" None)))
     = Some "Unknown risk level"%string
  /\ fst (fst (trigger_alert ∅ 7 "t" "SEVERE" "FUSION" None)) !! "SEVERE"%string = Some 7.
Proof.
  assert (N1 : "SEVERE"%string <> "NORMAL"%string) by discriminate.
  assert (N2 : "SEVERE"%string <> "WARNING"%string) by discriminate.
  assert (N3 : "SEVERE"%string <> "CRITICAL"%string) by discriminate.
  destruct (unknown_level_alert ∅ 7 "t"%string "SEVERE"%string "FUSION"%string None N1 N2 N3)
    as (Hcd & Hfired & _ & Hfirst & _).
  destruct (Hfired (Hfirst (lookup_empty _))) as (_ & Hstored & Hret & _).
  split; [exact Hcd |]. split; [| exact Hstored].
  rewrite Hret. reflexivity.
Defined.

(* ------------------------------------------------------------------ *)
(** *** The logger, first alerts, and the beep                          *)
(* ------------------------------------------------------------------ *)

(** The alerts of a list that are neither CRITICAL nor WARNING. *)
Definition other_levels (log : AlertLogger) : list alert_dict :=
  filter (fun a => risk_level a <> "CRITICAL"%string /\ risk_level a <> "WARNING"%string)
         log.

Lemma count_split (log : AlertLogger) :
  (count_level "CRITICAL" log + count_level "WARNING" log
   + Z.of_nat (length (other_levels log)) = Z.of_nat (length log))%Z.
Proof.
  unfold count_level, other_levels, AlertLogger in *.
  induction log as [| a log IH]; [reflexivity |].
  rewrite !filter_cons.
  destruct (decide (risk_level a = "CRITICAL"%string)) as [Ec | Nc];
    destruct (decide (risk_level a = "WARNING"%string)) as [Ew | Nw];
    destruct (decide (risk_level a <> "CRITICAL"%string
                      /\ risk_level a <> "WARNING"%string)) as [[H1 H2] | Hn];
    cbn [length]; try lia; try congruence.
  exfalso. apply Hn. auto.
Qed.

(** X14. In the summary of any log the three counts add up to the total,
    and the count called [normal] is the number of alerts that are
    neither CRITICAL nor WARNING: alerts of an unknown level are counted
    as normal. *)
Theorem summary_partition :
  forall log : AlertLogger,
    let s := get_summary log in
    total_alerts s = Z.of_nat (length log)
    /\ (critical s + warnings s + normal s = total_alerts s)%Z
    /\ normal s = Z.of_nat (length (other_levels log))
    /\ (0 <= critical s)%Z /\ (0 <= warnings s)%Z /\ (0 <= normal s)%Z.
Proof.
  intros log s. subst s. unfold get_summary.
  cbn [total_alerts critical warnings normal].
  pose proof (count_split log) as H.
  unfold count_level in *. repeat split; lia.
Qed.

(** Adding alerts one after the other, as the caller of [trigger_alert]
    does. *)
Definition add_all (log : AlertLogger) (alerts : list alert_dict) : AlertLogger :=
  fold_left add alerts log.

Lemma add_all_filter (alerts : list alert_dict) : forall log : AlertLogger,
  add_all log alerts = (log ++ filter (fun a => suppressed a = false) alerts)%list.
Proof.
  unfold add_all.
  induction alerts as [| a alerts IH]; intros log; cbn [fold_left].
  - rewrite filter_nil, app_nil_r. reflexivity.
  - rewrite IH, filter_cons. unfold add.
    destruct (suppressed a) eqn:Hs; cbn [negb].
    + destruct (decide (true = false)); [discriminate | reflexivity].
    + destruct (decide (false = false)); [| congruence].
      rewrite <- app_assoc. reflexivity.
Qed.

(** X15. A logger fed every dictionary a sequence of calls returns holds
    exactly the alerts that were not suppressed, in order; its total is
    their number, and no suppressed dictionary is ever stored. *)
Theorem log_holds_fired_alerts :
  forall (last : gmap string Q) (calls : list call),
    let returned_dicts := snd (trigger_alerts last calls) in
    let log := add_all [] returned_dicts in
    log = filter (fun a => suppressed a = false) returned_dicts
    /\ Forall (fun a => suppressed a = false) log
    /\ total_alerts (get_summary log)
       = Z.of_nat (length (filter (fun a => suppressed a = false) returned_dicts))
    /\ length returned_dicts = length calls.
Proof.
  intros last calls returned_dicts log.
  assert (Hlog : log = filter (fun a => suppressed a = false) returned_dicts).
  { subst log. rewrite add_all_filter. reflexivity. }
  split; [exact Hlog |]. split; [| split].
  - rewrite Hlog. apply Forall_forall. intros a Ha.
    apply list_elem_of_filter in Ha. tauto.
  - rewrite Hlog. reflexivity.
  - subst returned_dicts. clear. revert last.
    induction calls as [| c rest IH]; intros last; [reflexivity |].
    rewrite trigger_alerts_cons. cbn [snd length]. rewrite IH. reflexivity.
Qed.

(** From dictionaries that hold no time for the levels called, calls of
    pairwise different levels all fire. *)
Lemma distinct_levels_fire (calls : list call) :
  forall last : gmap string Q,
    NoDup (map call_level calls) ->
    Forall (fun c => last !! call_level c = None) calls ->
    Forall (fun a => suppressed a = false) (snd (trigger_alerts last calls)).
Proof.
  induction calls as [| c rest IH]; intros last Hnd Hfresh.
  - constructor.
  - rewrite trigger_alerts_cons. cbn [snd].
    cbn [map] in Hnd. apply NoDup_cons in Hnd. destruct Hnd as [Hnotin Hnd].
    inversion Hfresh as [| ? ? Hc Hrest]; subst.
    assert (Hout : forall t : Q, last !! call_level c = Some t ->
                                 cooldown (call_level c) <= call_now c - t).
    { intros t Ht. rewrite Hc in Ht. discriminate Ht. }
    destruct (trigger_alert_fired last (call_now c) (call_stamp c) (call_level c)
                (call_source c) (call_details c) Hout) as (eff & Heq & _).
    constructor.
    + unfold returned. rewrite Heq. reflexivity.
    + apply IH; [exact Hnd |].
      rewrite Forall_forall in Hrest |- *. intros c' Hin.
      rewrite other_level_untouched.
      * apply Hrest. exact Hin.
      * intros E. apply Hnotin. rewrite E.
        apply list_elem_of_fmap. exists c'. auto.
Qed.

(** X16. In a new process, alerts of pairwise different levels are
    never suppressed, whatever their times. *)
Theorem first_alerts_fire :
  forall calls : list call,
    NoDup (map call_level calls) ->
    Forall (fun a => suppressed a = false) (snd (trigger_alerts ∅ calls)).
Proof.
  intros calls Hnd. apply distinct_levels_fire; [exact Hnd |].
  apply Forall_forall. intros c _. apply lookup_empty.
Qed.

(** The module's own test: the three levels half a second apart are all
    logged, one of each kind. *)
Lemma first_alerts_fire_witness :
  let calls := [MkCall 0 "t" "NORMAL" "TEST" None;
                MkCall 0.5 "t" "WARNING" "TEST" None;
                MkCall 1 "t" "CRITICAL" "TEST" None] in
  Forall (fun a => suppressed a = false) (snd (trigger_alerts ∅ calls))
  /\ get_summary (add_all [] (snd (trigger_alerts ∅ calls))) = MkSummary 3 1 1 1.
Proof.
  intros calls. split; [| vm_compute; reflexivity].
  apply (first_alerts_fire calls).
  repeat (apply NoDup_cons; split; [intros H; repeat (apply elem_of_cons in H;
    destruct H as [H | H]; [discriminate H |]); apply elem_of_nil in H; exact H |]).
  apply NoDup_nil. exact I.
Defined.


End AlertProps.

(* ------------------------------------------------------------------ *)
(** ** The dashboard's risk level                                      *)
(* ------------------------------------------------------------------ *)

Module AppProps.
Import App.

Local Open Scope Q_scope.














(* ------------------------------------------------------------------ *)
(** *** Simulated scenarios, training labels, the history               *)
(* ------------------------------------------------------------------ *)

Lemma Qgeb_inject_Z (n : Z) : Qgeb (inject_Z n) 3 = (3 <=? n)%Z.
Proof.
  unfold Qgeb. destruct (Z.leb_spec 3 n) as [H | H].
  - apply Qle_bool_iff. change 3 with (inject_Z 3). rewrite <- Zle_Qle. exact H.
  - destruct (Qle_bool 3 (inject_Z n)) eqn:E; [| reflexivity].
    apply Qle_bool_iff in E. change 3 with (inject_Z 3) in E.
    rewrite <- Zle_Qle in E. lia.
Qed.

(** [get_risk_level] on a dictionary [simulate_sensor_data] builds. *)
Lemma get_risk_level_sensor (heart_rate hrv spo2 skin_temp ear : Q)
    (blink_rate yawn_count activity : Z) (ear_thresh hr_critical spo2_warn : Q) :
  get_risk_level
    (sensor_dict heart_rate hrv spo2 skin_temp ear blink_rate yawn_count activity)
    ear_thresh hr_critical spo2_warn
  = if Qltb hr_critical heart_rate || Qltb spo2 (spo2_warn - 3)
       || Qltb ear (ear_thresh - 0.05) || Qltb hrv 15
    then Ok "CRITICAL"%string
    else if Qltb (hr_critical - 20) heart_rate || Qltb spo2 spo2_warn
            || Qltb ear ear_thresh || (3 <=? yawn_count)%Z
    then Ok "WARNING"%string
    else Ok "NORMAL"%string.
Proof.
  unfold get_risk_level, getitem, sensor_dict.
  repeat (rewrite lookup_insert_eq || rewrite lookup_insert_ne by discriminate).
  cbn [rbind].
  destruct (Qltb hr_critical heart_rate || Qltb spo2 (spo2_warn - 3)
            || Qltb ear (ear_thresh - 0.05) || Qltb hrv 15); [reflexivity |].
  destruct (Qltb (hr_critical - 20) heart_rate || Qltb spo2 spo2_warn
            || Qltb ear ear_thresh) eqn:Hw; cbn [orb].
  - reflexivity.
  - repeat (rewrite lookup_insert_eq || rewrite lookup_insert_ne by discriminate).
    cbn [rbind]. rewrite Qgeb_inject_Z. destruct (3 <=? yawn_count)%Z; reflexivity.
Qed.

(** The draws [random()] and [randint] can return for a scenario. *)
Definition valid_draws (scenario : string) (d : draws) : Prop :=
  (0 <= u_heart_rate d < 1) /\ (0 <= u_hrv d < 1) /\ (0 <= u_spo2 d < 1)
  /\ (0 <= u_skin_temp d < 1) /\ (0 <= u_ear d < 1)
  /\ (fst (fst (randint_ranges scenario)) <= n_blink_rate d
      <= snd (fst (randint_ranges scenario)))%Z
  /\ (fst (snd (randint_ranges scenario)) <= n_yawn_count d
      <= snd (snd (randint_ranges scenario)))%Z.

(** X18. With the sliders anywhere in their ranges: the simulated
    "normal" scenario is always rated NORMAL as long as the EAR threshold
    is at most 0.28; the "warning" scenario is never rated CRITICAL when
    the critical heart rate is at least 125 and the EAR threshold at most
    0.25 (it may be rated NORMAL); the "critical" scenario is never rated
    NORMAL, but may be rated only WARNING. *)
Theorem scenario_risk_levels :
  forall (d : draws) (ear_thresh hr_critical spo2_warn : Q),
    0.15 <= ear_thresh <= 0.35 ->
    120 <= hr_critical <= 160 ->
    90 <= spo2_warn <= 97 ->
    (valid_draws "normal" d -> ear_thresh <= 0.28 ->
     get_risk_level (simulate_sensor_data "normal" d) ear_thresh hr_critical spo2_warn
     = Ok "NORMAL"%string)
    /\ (valid_draws "warning" d -> 125 <= hr_critical -> ear_thresh <= 0.25 ->
        get_risk_level (simulate_sensor_data "warning" d) ear_thresh hr_critical spo2_warn
        = Ok "WARNING"%string
        \/ get_risk_level (simulate_sensor_data "warning" d) ear_thresh hr_critical spo2_warn
           = Ok "NORMAL"%string)
    /\ (valid_draws "critical" d ->
        get_risk_level (simulate_sensor_data "critical" d) ear_thresh hr_critical spo2_warn
        = Ok "CRITICAL"%string
        \/ get_risk_level (simulate_sensor_data "critical" d) ear_thresh hr_critical spo2_warn
           = Ok "WARNING"%string).
Proof.
  intros d et hc sw Het Hhc Hsw. split; [| split].
  - intros (Hhr & Hhrv & Hspo2 & _ & Hear & _ & Hyawn) Het28.
    change (simulate_sensor_data "normal" d)
      with (sensor_dict (uniform 65 85 (u_heart_rate d)) (uniform 40 65 (u_hrv d))
                        (uniform 97 99.5 (u_spo2 d)) (uniform 33 35.5 (u_skin_temp d))
                        (uniform 0.28 0.38 (u_ear d)) (n_blink_rate d) (n_yawn_count d) 1).
    rewrite get_risk_level_sensor. unfold uniform.
    change (randint_ranges "normal") with ((12, 20), (0, 1))%Z in Hyawn.
    cbn [fst snd] in Hyawn.
    rewrite (Qltb_elim hc), (Qltb_elim _ (sw - 3)), (Qltb_elim _ (et - 0.05)),
      (Qltb_elim _ 15), (Qltb_elim (hc - 20)), (Qltb_elim _ sw), (Qltb_elim _ et)
      by lra.
    destruct (Z.leb_spec 3 (n_yawn_count d)); [lia | reflexivity].
  - intros (Hhr & Hhrv & Hspo2 & _ & Hear & _ & Hyawn) Hhc125 Het25.
    change (simulate_sensor_data "warning" d)
      with (sensor_dict (uniform 105 125 (u_heart_rate d)) (uniform 20 30 (u_hrv d))
                        (uniform 94 96.5 (u_spo2 d)) (uniform 36 37.5 (u_skin_temp d))
                        (uniform 0.20 0.26 (u_ear d)) (n_blink_rate d) (n_yawn_count d) 0).
    rewrite get_risk_level_sensor. unfold uniform.
    rewrite (Qltb_elim hc), (Qltb_elim _ (sw - 3)), (Qltb_elim _ (et - 0.05)),
      (Qltb_elim _ 15) by lra.
    cbn [orb].
    match goal with |- context [if ?b then _ else _] => destruct b end; auto.
  - intros (Hhr & Hhrv & Hspo2 & _ & Hear & _ & Hyawn).
    change (simulate_sensor_data "critical" d)
      with (sensor_dict (uniform 135 155 (u_heart_rate d)) (uniform 10 18 (u_hrv d))
                        (uniform 91 94 (u_spo2 d)) (uniform 37.5 39 (u_skin_temp d))
                        (uniform 0.12 0.22 (u_ear d)) (n_blink_rate d) (n_yawn_count d) 0).
    rewrite get_risk_level_sensor.
    change (randint_ranges "critical") with ((1, 5), (4, 8))%Z in Hyawn.
    cbn [fst snd] in Hyawn.
    match goal with |- context [if ?b then _ else _] => destruct b end; [auto |].
    destruct (Z.leb_spec 3 (n_yawn_count d)) as [_ | H]; [| lia].
    rewrite !orb_true_r. auto.
Qed.

(** With the default thresholds: a draw of the "warning" scenario that
    the dashboard rates NORMAL, and one of the "critical" scenario that it
    rates WARNING. *)
Lemma scenario_risk_levels_witness :
  get_risk_level (simulate_sensor_data "normal" (MkDraws 0.5 0.5 0.5 0.5 0.5 15 1))
                 0.25 140 95 = Ok "NORMAL"%string
  /\ get_risk_level (simulate_sensor_data "warning" (MkDraws 0.25 0.5 0.8 0.5 0.9 8 2))
                    0.25 140 95 = Ok "NORMAL"%string
  /\ get_risk_level (simulate_sensor_data "critical" (MkDraws 0.05 0.8 0.8 0.5 0.9 3 4))
                    0.25 140 95 = Ok "WARNING"%string.
Proof.
  split; [| split; vm_compute; reflexivity].
  refine (proj1 (scenario_risk_levels (MkDraws 0.5 0.5 0.5 0.5 0.5 15 1) 0.25 140 95
                   _ _ _) _ _).
  - split; vm_compute; congruence.
  - split; vm_compute; congruence.
  - split; vm_compute; congruence.
  - unfold valid_draws. cbn. repeat split; try (vm_compute; congruence); lia.
  - vm_compute. congruence.
Defined.

Lemma label_critical (hr hrv spo2 skin_temp : Q) (time_of_day : Z) :
  140 < hr \/ hr < 45 \/ spo2 < 94 \/ hrv < 15 \/ 38 < skin_temp ->
  HeartRateModel.risk_label_of hr hrv spo2 skin_temp time_of_day = 2%nat.
Proof.
  intros H. unfold HeartRateModel.risk_label_of.
  assert (Hc : Qltb 140 hr || Qltb hr 45 || Qltb spo2 94 || Qltb hrv 15
               || Qltb 38 skin_temp = true).
  { destruct H as [H | [H | [H | [H | H]]]]; rewrite (Qltb_intro _ _ H);
      rewrite ?orb_true_r; reflexivity. }
  rewrite Hc. reflexivity.
Qed.

Lemma label_warning (hr hrv spo2 skin_temp : Q) (time_of_day : Z) :
  110 < hr \/ hr < 55 \/ spo2 < 96 \/ hrv < 25 ->
  (1 <= HeartRateModel.risk_label_of hr hrv spo2 skin_temp time_of_day)%nat.
Proof.
  intros H. unfold HeartRateModel.risk_label_of.
  destruct (Qltb 140 hr || Qltb hr 45 || Qltb spo2 94 || Qltb hrv 15
            || Qltb 38 skin_temp); [lia |].
  assert (Hw : Qltb 110 hr || Qltb hr 55 || Qltb spo2 96 || Qltb hrv 25 = true).
  { destruct H as [H | [H | [H | H]]]; rewrite (Qltb_intro _ _ H);
      rewrite ?orb_true_r; reflexivity. }
  rewrite Hw. cbn [orb]. lia.
Qed.

(** X19. The labels of the training data are at least as severe as the
    dashboard's rating at its default thresholds: for a reading whose face
    is calm (EAR at least 0.25, fewer than 3 yawns), what the dashboard
    rates CRITICAL is labelled 2 and what it rates WARNING is labelled 1
    or 2.  The converse fails: the dashboard has no rule for a low heart
    rate, and rates NORMAL a reading below 45 bpm that is labelled 2. *)
Theorem labels_cover_dashboard :
  forall (data : gmap string Q) (hr hrv spo2 ear yawn_count skin_temp : Q)
         (time_of_day : Z),
    data !! "heart_rate"%string = Some hr ->
    data !! "spo2"%string = Some spo2 ->
    data !! "ear"%string = Some ear ->
    data !! "hrv"%string = Some hrv ->
    data !! "yawn_count"%string = Some yawn_count ->
    0.25 <= ear -> yawn_count < 3 ->
    let label := HeartRateModel.risk_label_of hr hrv spo2 skin_temp time_of_day in
    (get_risk_level data 0.25 140 95 = Ok "CRITICAL"%string -> label = 2%nat)
    /\ (get_risk_level data 0.25 140 95 = Ok "WARNING"%string -> (1 <= label)%nat)
    /\ (hr < 45 -> 95 <= spo2 -> 15 <= hrv ->
        get_risk_level data 0.25 140 95 = Ok "NORMAL"%string /\ label = 2%nat).
Proof.
  intros data hr hrv spo2 ear yawn_count skin_temp time_of_day
         Hhr Hspo2 Hear Hhrv Hyawn Hcalm Hfew label.
  assert (Hrun : get_risk_level data 0.25 140 95
                 = if Qltb 140 hr || Qltb spo2 (95 - 3) || Qltb hrv 15
                   then Ok "CRITICAL"%string
                   else if Qltb (140 - 20) hr || Qltb spo2 95
                   then Ok "WARNING"%string else Ok "NORMAL"%string).
  { unfold get_risk_level, getitem. rewrite Hhr, Hspo2, Hear, Hhrv. cbn [rbind].
    rewrite (Qltb_elim ear (0.25 - 0.05)), (Qltb_elim ear 0.25) by lra.
    rewrite Hyawn. cbn [rbind]. unfold Qgeb.
    assert (Hy : Qle_bool 3 yawn_count = false).
    { destruct (Qle_bool 3 yawn_count) eqn:E; [| reflexivity].
      apply Qle_bool_iff in E. lra. }
    rewrite Hy, !orb_false_r.
    destruct (Qltb 140 hr), (Qltb spo2 (95 - 3)), (Qltb hrv 15); cbn [orb];
      reflexivity. }
  rewrite Hrun. split; [| split].
  - destruct (Qltb 140 hr) eqn:E1.
    { intros _. apply Qltb_true in E1. apply label_critical. auto. }
    destruct (Qltb spo2 (95 - 3)) eqn:E2.
    { intros _. apply Qltb_true in E2. apply label_critical. right; right; left. lra. }
    destruct (Qltb hrv 15) eqn:E3.
    { intros _. apply Qltb_true in E3. apply label_critical. auto 6. }
    cbn [orb]. destruct (Qltb (140 - 20) hr || Qltb spo2 95); discriminate.
  - destruct (Qltb 140 hr || Qltb spo2 (95 - 3) || Qltb hrv 15); [discriminate |].
    destruct (Qltb (140 - 20) hr) eqn:E1.
    { intros _. apply Qltb_true in E1. apply label_warning. left. lra. }
    destruct (Qltb spo2 95) eqn:E2.
    { intros _. apply Qltb_true in E2. apply label_warning. right; right; left. lra. }
    discriminate.
  - intros Hlow Hs Hv. split; [| apply label_critical; auto].
    rewrite (Qltb_elim 140 hr), (Qltb_elim spo2 (95 - 3)), (Qltb_elim hrv 15),
      (Qltb_elim (140 - 20) hr), (Qltb_elim spo2 95) by lra.
    reflexivity.
Qed.

Lemma labels_cover_dashboard_witness :
  let data : gmap string Q :=
    list_to_map [("heart_rate"%string, 40); ("spo2"%string, 98); ("ear"%string, 0.3);
                 ("hrv"%string, 50); ("yawn_count"%string, 0)] in
  get_risk_level data 0.25 140 95 = Ok "NORMAL"%string
  /\ HeartRateModel.risk_label_of 40 50 98 34 12 = 2%nat.
Proof.
  intros data.
  refine (proj2 (proj2 (labels_cover_dashboard data 40 50 98 0.3 0 34 12
                          eq_refl eq_refl eq_refl eq_refl eq_refl _ _)) _ _ _);
    vm_compute; congruence.
Defined.

(** The last 20 entries of a list. *)
Definition last_20 {A : Type} (l : list A) : list A := drop (length l - 20) l.

(** The session's history after a series of refreshes. *)
Definition refresh {A : Type} (history : option (list A)) (readings : list A)
  : option (list A) :=
  fold_left (fun h reading => Some (update_history h reading)) readings history.

Lemma update_history_last_20 {A : Type} (l : list A) (reading : A) :
  update_history (Some (last_20 l)) reading = last_20 (l ++ [reading]).
Proof.
  unfold update_history, last_20.
  rewrite !length_app, length_drop. cbn [length].
  destruct (Nat.ltb_spec 20 (length l - (length l - 20) + 1)) as [H | H].
  - replace (length l - (length l - 20) + 1 - 20)%nat with 1%nat by lia.
    rewrite (drop_app_le (drop (length l - 20) l)) by (rewrite length_drop; lia).
    rewrite drop_drop. rewrite (drop_app_le l) by lia.
    do 2 f_equal. lia.
  - replace (length l - 20)%nat with 0%nat by lia.
    replace (length l + 1 - 20)%nat with 0%nat by lia.
    rewrite !drop_0. reflexivity.
Qed.

Lemma refresh_last_20 {A : Type} (readings : list A) : forall l : list A,
  refresh (Some (last_20 l)) readings = Some (last_20 (l ++ readings)).
Proof.
  unfold refresh.
  induction readings as [| r readings IH]; intros l; cbn [fold_left].
  - rewrite app_nil_r. reflexivity.
  - rewrite update_history_last_20, IH, <- app_assoc. reflexivity.
Qed.

(** X20. The history never holds more than 20 readings and always ends
    with the newest; from a new session, after any number of refreshes it
    is exactly the last 20 readings, in order. *)
Theorem history_keeps_last_20 :
  forall (A : Type) (history : option (list A)) (reading : A) (readings : list A),
    (length (update_history history reading) <= 20)%nat
    /\ last (update_history history reading) = Some reading
    /\ refresh None (reading :: readings)
       = Some (drop (length (reading :: readings) - 20) (reading :: readings)).
Proof.
  intros A history reading readings. split; [| split].
  - unfold update_history.
    destruct (Nat.ltb_spec 20 (length (match history with Some h => h | None => [] end
                                       ++ [reading]))) as [H | H].
    + rewrite length_drop. lia.
    + exact H.
  - unfold update_history.
    set (h := (match history with Some h => h | None => [] end ++ [reading])%list).
    assert (Hlast : last h = Some reading) by (subst h; apply last_snoc).
    destruct (Nat.ltb_spec 20 (length h)) as [H | H]; [| exact Hlast].
    rewrite <- Hlast.
    transitivity (last (take (length h - 20) h ++ drop (length h - 20) h));
      [| rewrite take_drop; reflexivity].
    rewrite last_app.
    destruct (last (drop (length h - 20) h)) eqn:E; [reflexivity |].
    apply last_None in E. apply (f_equal length) in E.
    rewrite length_drop in E. cbn in E. lia.
  - change (refresh None (reading :: readings))
      with (refresh (Some (last_20 [reading])) readings).
    rewrite refresh_last_20. reflexivity.
Qed.

End AppProps.
